(** * generate_timesheet: time normalisation, durations and row building

    A shallow embedding of [generate_timesheet.py] together with the
    parts of the Python standard library it calls ([str] methods,
    [int], [datetime.strptime]/[strftime], [decimal.Decimal],
    [html.escape]).

    Text is modelled by [string]: sequences of ASCII characters.
    Python integers are [Z].  A call that may raise returns a
    [result]; a [try]/[except ValueError] around a parser is an
    [option] that is matched on the spot.

    The library is the one of CPython 3.12 or later (the f-strings of
    build_rows need it) with its defaults: the decimal context of
    precision 28, the limit of 4300 digits on [int], the C locale
    for AM and PM.  The input record has the types of the data model:
    day and date are strings, shifts is a list of objects, and the
    fields of a shift are scalars read from JSON. *)

From Stdlib Require Import ZArith QArith Qabs Bool List Ascii String Lia.
Import ListNotations.

Local Open Scope string_scope.
Local Open Scope Z_scope.

(** ** Exceptions *)

Inductive exn : Type :=
| InvalidOperation
| DivisionByZero
| Overflow.

Inductive result (A : Type) : Type :=
| Ok (a : A)
| Raise (e : exn).
Arguments Ok {A} a.
Arguments Raise {A} e.

Definition bind {A B : Type} (r : result A) (k : A -> result B) : result B :=
  match r with
  | Ok a => k a
  | Raise e => Raise e
  end.

Notation "x <- r ;; k" := (bind r (fun x => k))
  (at level 61, r at next level, right associativity).

(** [a or b] on optional results of a backtracking matcher. *)
Definition orelse {A : Type} (a b : option A) : option A :=
  match a with
  | Some _ => a
  | None => b
  end.

(** ** Characters and [str] methods *)

Module PyStr.

Definition code (c : ascii) : Z := Z.of_N (N_of_ascii c).

Definition chr (z : Z) : ascii := ascii_of_N (Z.to_N z).

Definition in_range (lo hi : Z) (c : ascii) : bool :=
  (lo <=? code c) && (code c <=? hi).

Definition is_digit (c : ascii) : bool := in_range 48 57 c.

Definition digit_value (c : ascii) : Z := code c - 48.

Definition digit_char (d : Z) : ascii := chr (48 + d).

(** Whitespace as [str.strip] sees it (the ASCII part of
    [Py_UNICODE_ISSPACE]): tab to carriage return, the four
    separators 28..31 and the space. *)
Definition is_space (c : ascii) : bool :=
  in_range 9 13 c || in_range 28 31 c || (code c =? 32).

(** Whitespace as [int] sees it on ASCII text ([Py_ISSPACE]). *)
Definition is_space_c (c : ascii) : bool :=
  in_range 9 13 c || (code c =? 32).

Definition upper_char (c : ascii) : ascii :=
  if in_range 97 122 c then chr (code c - 32) else c.

Fixpoint upper (s : string) : string :=
  match s with
  | EmptyString => EmptyString
  | String c r => String (upper_char c) (upper r)
  end.

Fixpoint lstrip (s : string) : string :=
  match s with
  | EmptyString => EmptyString
  | String c r => if is_space c then lstrip r else s
  end.

Fixpoint rstrip (s : string) : string :=
  match s with
  | EmptyString => EmptyString
  | String c r =>
      match rstrip r with
      | EmptyString => if is_space c then EmptyString else String c EmptyString
      | r' => String c r'
      end
  end.

Definition strip (s : string) : string := lstrip (rstrip s).

(** [s.replace(old, EmptyString)] for a one-character [old]. *)
Fixpoint remove_char (old : ascii) (s : string) : string :=
  match s with
  | EmptyString => EmptyString
  | String c r =>
      if Ascii.eqb c old then remove_char old r
      else String c (remove_char old r)
  end.

(** [s.split(sep)] for a one-character separator: never empty. *)
Fixpoint split (sep : ascii) (s : string) : list string :=
  match s with
  | EmptyString => [EmptyString]
  | String c r =>
      if Ascii.eqb c sep then EmptyString :: split sep r
      else match split sep r with
           | p :: ps => String c p :: ps
           | [] => [String c EmptyString]
           end
  end.

Fixpoint join (sep : string) (l : list string) : string :=
  match l with
  | [] => EmptyString
  | [x] => x
  | x :: r => x ++ sep ++ join sep r
  end.

Fixpoint all_chars (p : ascii -> bool) (s : string) : bool :=
  match s with
  | EmptyString => true
  | String c r => p c && all_chars p r
  end.

(** *** [int(text)] in base ten

    Optional whitespace, an optional sign, digits with single
    underscores between them, optional whitespace.  Text with more
    than [max_str_digits] digits is refused (the interpreter default
    of 4300); either refusal is a [ValueError], here [None]. *)

Definition max_str_digits : Z := 4300.

Fixpoint lskip_c (s : string) : string :=
  match s with
  | EmptyString => EmptyString
  | String c r => if is_space_c c then lskip_c r else s
  end.

(** The scanning loop: [prev_us] says whether the previous character
    was an underscore; returns the value, the digit count and the
    unread rest. *)
Fixpoint scan_digits (s : string) (prev_us : bool) (acc n : Z)
  : option (Z * Z * string) :=
  match s with
  | EmptyString => if prev_us then None else Some (acc, n, s)
  | String c r =>
      if Ascii.eqb c "_" then
        if prev_us then None else scan_digits r true acc n
      else if is_digit c then
        scan_digits r false (acc * 10 + digit_value c) (n + 1)
      else if prev_us then None else Some (acc, n, s)
  end.

(** The sign in front of the digits, and what follows it. *)
Definition split_sign (s : string) : Z * string :=
  match s with
  | String c r =>
      if Ascii.eqb c "+" then (1, r)
      else if Ascii.eqb c "-" then (-1, r)
      else (1, s)
  | EmptyString => (1, s)
  end.

Definition starts_with (c : ascii) (s : string) : bool :=
  match s with
  | String x _ => Ascii.eqb x c
  | EmptyString => false
  end.

Definition int (text : string) : option Z :=
  let '(sign, s) := split_sign (lskip_c text) in
  if starts_with "_" s then None
  else
    match scan_digits s false 0 0 with
    | Some (v, n, rest) =>
        if (n =? 0) || negb (all_chars is_space_c rest) then None
        else if max_str_digits <? n then None
        else Some (sign * v)
    | None => None
    end.

(** *** [str(n)] and zero padding *)

Fixpoint digits_fuel (fuel : nat) (n : Z) (acc : string) : string :=
  match fuel with
  | O => acc
  | S f =>
      let acc' := String (digit_char (n mod 10)) acc in
      if n <? 10 then acc' else digits_fuel f (n / 10) acc'
  end.

(** Decimal digits of a natural number, most significant first. *)
Definition digits_of (n : Z) : string :=
  digits_fuel (S (Z.to_nat (Z.log2 n))) n EmptyString.

Definition str_int (n : Z) : string :=
  if n <? 0 then String "-" (digits_of (- n)) else digits_of n.

(** Two digits, as [%H], [%I] and [%M] print a field below 100. *)
Definition pad2 (n : Z) : string :=
  String (digit_char (n / 10)) (String (digit_char (n mod 10)) EmptyString).

(** *** [html.escape(s)] with [quote=True] *)

Definition dq : string := String "034" EmptyString.

Definition escape_char (c : ascii) : string :=
  if Ascii.eqb c "&" then "&amp;"
  else if Ascii.eqb c "<" then "&lt;"
  else if Ascii.eqb c ">" then "&gt;"
  else if Ascii.eqb c "034" then "&quot;"
  else if Ascii.eqb c "'" then "&#x27;"
  else String c EmptyString.

Fixpoint escape (s : string) : string :=
  match s with
  | EmptyString => EmptyString
  | String c r => escape_char c ++ escape r
  end.

End PyStr.

Import PyStr.

(** ** [datetime.strptime] and [strftime] for the two formats used

    [strptime] compiles the format to a regular expression, matches
    it at the start of the text (first match in the order of the
    alternatives, with backtracking), and refuses text that the match
    does not consume entirely.  AM and PM are those of the C locale;
    the expression ignores case. *)

Module PyTime.

Inductive format : Type :=
| FMT_I_M_p   (* %I:%M%p *)
| FMT_H_M.    (* %H:%M *)

(** The fields of a [datetime] that the two formats read and print. *)
Record datetime : Type := mkdatetime { hour : Z; minute : Z }.

Section Regex.
Context {A : Type}.

(** A matcher gets the unread text and the continuation that matches
    what follows; its alternatives are tried in order. *)
Definition matcher (V : Type) : Type := string -> (V -> string -> option A) -> option A.

(** Two characters [c1 c2] with [p1 c1] and [p2 c2]. *)
Definition two (p1 p2 : ascii -> bool) : matcher string :=
  fun s k =>
    match s with
    | String c1 (String c2 r) =>
        if p1 c1 && p2 c2 then k (String c1 (String c2 EmptyString)) r else None
    | _ => None
    end.

Definition one (p : ascii -> bool) : matcher string :=
  fun s k =>
    match s with
    | String c r => if p c then k (String c EmptyString) r else None
    | _ => None
    end.

Definition alt {V} (m1 m2 : matcher V) : matcher V :=
  fun s k => orelse (m1 s k) (m2 s k).

Definition lit (c : ascii) : ascii -> bool := Ascii.eqb c.

(** Letter [c] (given in lower case), ignoring case. *)
Definition is_nocase (c : ascii) (x : ascii) : bool :=
  Ascii.eqb x c || Ascii.eqb x (upper_char c).

(** (?P<I>1[0-2]|0[1-9]|[1-9]) *)
Definition re_I : matcher string :=
  alt (two (lit "1") (in_range 48 50))
    (alt (two (lit "0") (in_range 49 57)) (one (in_range 49 57))).

(** (?P<H>2[0-3]|[0-1]\d|\d) *)
Definition re_H : matcher string :=
  alt (two (lit "2") (in_range 48 51))
    (alt (two (in_range 48 49) is_digit) (one is_digit)).

(** (?P<M>[0-5]\d|\d) *)
Definition re_M : matcher string :=
  alt (two (in_range 48 53) is_digit) (one is_digit).

(** (?P<p>am|pm) *)
Definition re_p : matcher string :=
  alt (two (is_nocase "a") (is_nocase "m")) (two (is_nocase "p") (is_nocase "m")).

Definition colon : matcher string := one (lit ":").
End Regex.

(** The groups found and the end of the match. *)
Record found : Type :=
  mkfound { g_hour : string; g_M : string; g_p : string; rest : string }.

Definition regex_match (fmt : format) (data_string : string) : option found :=
  match fmt with
  | FMT_I_M_p =>
      re_I data_string (fun i s =>
      colon s (fun _ s =>
      re_M s (fun m s =>
      re_p s (fun p s => Some (mkfound i m p s)))))
  | FMT_H_M =>
      re_H data_string (fun h s =>
      colon s (fun _ s =>
      re_M s (fun m s => Some (mkfound h m EmptyString s))))
  end.

Definition lower_char (c : ascii) : ascii :=
  if in_range 65 90 c then chr (code c + 32) else c.

Fixpoint lower (s : string) : string :=
  match s with
  | EmptyString => EmptyString
  | String c r => String (lower_char c) (lower r)
  end.

(** [None] is the [ValueError] of text that does not match or is
    not consumed to its end. *)
Definition strptime (data_string : string) (fmt : format) : option datetime :=
  match regex_match fmt data_string with
  | None => None
  | Some f =>
      match rest f with
      | String _ _ => None
      | EmptyString =>
          match int (g_hour f), int (g_M f) with
          | Some h, Some m =>
              match fmt with
              | FMT_H_M => Some (mkdatetime h m)
              | FMT_I_M_p =>
                  let ampm := lower (g_p f) in
                  if String.eqb ampm "am" then
                    Some (mkdatetime (if h =? 12 then 0 else h) m)
                  else if String.eqb ampm "pm" then
                    Some (mkdatetime (if h =? 12 then h else h + 12) m)
                  else Some (mkdatetime h m)
              end
          | _, _ => None
          end
      end
  end.

(** [%I]: the hour on the 12-hour clock. *)
Definition hour12 (h : Z) : Z :=
  if h mod 12 =? 0 then 12 else h mod 12.

Definition am_pm (h : Z) : string := if h <? 12 then "AM" else "PM".

Definition strftime (parsed : datetime) (fmt : format) : string :=
  match fmt with
  | FMT_H_M => pad2 (hour parsed) ++ ":" ++ pad2 (minute parsed)
  | FMT_I_M_p =>
      pad2 (hour12 (hour parsed)) ++ ":" ++ pad2 (minute parsed)
        ++ am_pm (hour parsed)
  end.

End PyTime.

Import PyTime.

(** ** [decimal.Decimal] under the default context

    A decimal is a sign, a coefficient and an exponent, or a special
    value.  Arithmetic follows the General Decimal Arithmetic
    specification that the module implements: the exact result is
    fitted to the context by [dec_fix] (precision 28, rounding half
    to even, exponents within [Emin] and [Emax]; the signals
    InvalidOperation, DivisionByZero and Overflow raise). *)

Module PyDecimal.

Inductive Decimal : Type :=
| Finite (sign : bool) (coeff : Z) (exp : Z)
| Infinity (sign : bool)
| NaN (sign : bool) (signaling : bool) (payload : Z).

Definition prec : Z := 28.
Definition Emax : Z := 999999.
Definition Emin : Z := -999999.
Definition Etiny : Z := Emin - prec + 1.
Definition Etop : Z := Emax - prec + 1.

(** Bounds of the constructor, which converts exactly or not at all. *)
Definition MAX_EMAX : Z := 999999999999999999.
Definition MIN_ETINY : Z := -1999999999999999997.

Fixpoint ndigits_fuel (fuel : nat) (n : Z) : Z :=
  match fuel with
  | O => 1
  | S f => if n <? 10 then 1 else 1 + ndigits_fuel f (n / 10)
  end.

(** [len(str(n))] for [n >= 0]. *)
Definition ndigits (n : Z) : Z := ndigits_fuel (Z.to_nat (Z.log2 n)) n.

(** Drop the [k] low digits of [c], rounding half to even. *)
Definition round_half_even (c k : Z) : Z :=
  let p := 10 ^ k in
  let q := c / p in
  let r := c mod p in
  if (p <? 2 * r) || ((2 * r =? p) && Z.odd q) then q + 1 else q.

(** [_fix]: fit a finite value to the context. *)
Definition dec_fix (sign : bool) (c e : Z) : result Decimal :=
  if c =? 0 then Ok (Finite sign 0 (Z.min (Z.max e Etiny) Emax))
  else
    let exp_min := ndigits c + e - prec in
    if Etop <? exp_min then Raise Overflow
    else
      let exp_min := Z.max exp_min Etiny in
      if e <? exp_min then
        let coeff := round_half_even c (exp_min - e) in
        let '(coeff, exp_min) :=
          if prec <? ndigits coeff then (coeff / 10, exp_min + 1)
          else (coeff, exp_min) in
        if Etop <? exp_min then Raise Overflow
        else Ok (Finite sign coeff exp_min)
      else Ok (Finite sign c e).

Definition fix_nan (sign signaling : bool) (payload : Z) : Decimal :=
  NaN sign signaling (payload mod 10 ^ prec).

(** [_check_nans]: a signalling NaN raises, a quiet one is the result. *)
Definition check_nans (a b : Decimal) : option (result Decimal) :=
  match a, b with
  | NaN _ true _, _ => Some (Raise InvalidOperation)
  | _, NaN _ true _ => Some (Raise InvalidOperation)
  | NaN s false p, _ => Some (Ok (fix_nan s false p))
  | _, NaN s false p => Some (Ok (fix_nan s false p))
  | _, _ => None
  end.

Definition signed (sign : bool) (c : Z) : Z := if sign then - c else c.

(** [a + b]. *)
Definition add (a b : Decimal) : result Decimal :=
  match check_nans a b with
  | Some r => r
  | None =>
      match a, b with
      | Infinity s1, Infinity s2 =>
          if xorb s1 s2 then Raise InvalidOperation else Ok a
      | Infinity _, _ => Ok a
      | _, Infinity _ => Ok b
      | Finite s1 c1 e1, Finite s2 c2 e2 =>
          let exp := Z.min e1 e2 in
          let z := signed s1 (c1 * 10 ^ (e1 - exp))
                   + signed s2 (c2 * 10 ^ (e2 - exp)) in
          let sign := if z =? 0 then s1 && s2 else z <? 0 in
          dec_fix sign (Z.abs z) exp
      | _, _ => Raise InvalidOperation
      end
  end.

(** Exact quotients move towards the ideal exponent. *)
Fixpoint strip_zeros (fuel : nat) (coeff exp : Z) : Z * Z :=
  match fuel with
  | O => (coeff, exp)
  | S f =>
      if coeff mod 10 =? 0 then strip_zeros f (coeff / 10) (exp + 1)
      else (coeff, exp)
  end.

(** [a / b]. *)
Definition truediv (a b : Decimal) : result Decimal :=
  match check_nans a b with
  | Some r => r
  | None =>
      match a, b with
      | Infinity _, Infinity _ => Raise InvalidOperation
      | Infinity s1, Finite s2 _ _ => Ok (Infinity (xorb s1 s2))
      | Finite s1 _ _, Infinity s2 => Ok (Finite (xorb s1 s2) 0 Etiny)
      | Finite s1 c1 e1, Finite s2 c2 e2 =>
          let sign := xorb s1 s2 in
          if c2 =? 0 then
            if c1 =? 0 then Raise InvalidOperation else Raise DivisionByZero
          else if c1 =? 0 then dec_fix sign 0 (e1 - e2)
          else
            let shift := ndigits c2 - ndigits c1 + prec + 1 in
            let exp := e1 - e2 - shift in
            let '(coeff, remainder) :=
              if 0 <=? shift then Z.div_eucl (c1 * 10 ^ shift) c2
              else Z.div_eucl c1 (c2 * 10 ^ (- shift)) in
            let '(coeff, exp) :=
              if remainder =? 0 then strip_zeros (Z.to_nat shift) coeff exp
              else (if coeff mod 5 =? 0 then coeff + 1 else coeff, exp) in
            dec_fix sign coeff exp
      | _, _ => Raise InvalidOperation
      end
  end.

(** [Decimal(n)] for an integer. *)
Definition of_int (n : Z) : Decimal := Finite (n <? 0) (Z.abs n) 0.

(** *** [Decimal(text)]

    Surrounding whitespace and all underscores are dropped; what is
    left is a sign followed by a number, an infinity or a NaN, in any
    letter case.  [None] is the InvalidOperation of text that is no
    numeric string. *)

Fixpoint span_digits (s : string) : string * string :=
  match s with
  | String c r =>
      if is_digit c then let '(d, r') := span_digits r in (String c d, r')
      else (EmptyString, s)
  | EmptyString => (EmptyString, EmptyString)
  end.

Fixpoint value_of_digits (acc : Z) (s : string) : Z :=
  match s with
  | EmptyString => acc
  | String c r => value_of_digits (acc * 10 + digit_value c) r
  end.

Definition parse_exponent (s : string) : option Z :=
  match s with
  | EmptyString => Some 0
  | String c r =>
      if Ascii.eqb (upper_char c) "E" then
        let '(sign, r) :=
          match r with
          | String "+" r' => (1, r')
          | String "-" r' => (-1, r')
          | _ => (1, r)
          end in
        match span_digits r with
        | (String _ _ as ds, EmptyString) => Some (sign * value_of_digits 0 ds)
        | _ => None
        end
      else None
  end.

Definition parse_number (sign : bool) (s : string) : option Decimal :=
  let '(intpart, s1) := span_digits s in
  let '(fracpart, s2) :=
    match s1 with
    | String "." r => span_digits r
    | _ => (EmptyString, s1)
    end in
  match (intpart ++ fracpart)%string with
  | EmptyString => None
  | String _ _ as ds =>
      match parse_exponent s2 with
      | None => None
      | Some e =>
          let coeff := value_of_digits 0 ds in
          let exp := e - Z.of_nat (String.length fracpart) in
          if (MIN_ETINY <=? exp) && (exp <=? MAX_EMAX)
             && ((coeff =? 0) || (exp + ndigits coeff - 1 <=? MAX_EMAX))
          then Some (Finite sign coeff exp)
          else None
      end
  end.

Definition parse_special (sign : bool) (s : string) : option Decimal :=
  if String.eqb s "INF" || String.eqb s "INFINITY" then Some (Infinity sign)
  else
    let '(signaling, s1) :=
      match s with
      | String "S" r => (true, r)
      | _ => (false, s)
      end in
    match s1 with
    | String "N" (String "A" (String "N" diag)) =>
        if all_chars is_digit diag
        then Some (NaN sign signaling (value_of_digits 0 diag))
        else None
    | _ => None
    end.

Definition of_string (text : string) : option Decimal :=
  let s := remove_char "_" (strip text) in
  let '(sign, s) :=
    match s with
    | String "+" r => (false, r)
    | String "-" r => (true, r)
    | _ => (false, s)
    end in
  orelse (parse_number sign s) (parse_special sign (upper s)).

(** [_rescale]: the coefficient of [c]E[e] at the exponent [exp],
    padded with zeros or rounded half to even. *)
Definition rescale (c e exp : Z) : Z :=
  if exp <=? e then c * 10 ^ (e - exp) else round_half_even c (exp - e).

(** [bool(d)]. *)
Definition is_true (d : Decimal) : bool :=
  match d with
  | Finite _ c _ => negb (c =? 0)
  | _ => true
  end.

Definition payload_text (p : Z) : string :=
  if p =? 0 then EmptyString else digits_of p.

Definition sign_text (sign : bool) : string :=
  if sign then "-" else EmptyString.

(** [format(d, ".2f")]: rescale to exponent -2 with the rounding of
    the context, then print; special values print their name. *)
Definition format_2f (d : Decimal) : string :=
  match d with
  | Finite sign c e =>
      let q := rescale c e (-2) in
      sign_text sign ++ digits_of (q / 100) ++ "." ++ pad2 (q mod 100)
  | Infinity sign => sign_text sign ++ "Infinity"
  | NaN sign signaling p =>
      sign_text sign ++ (if signaling then "sNaN" else "NaN") ++ payload_text p
  end.

(** The number a finite decimal denotes. *)
Definition to_Q (d : Decimal) : Q :=
  match d with
  | Finite sign c e =>
      if 0 <=? e then inject_Z (signed sign c * 10 ^ e)
      else Qmake (signed sign c) (Z.to_pos (10 ^ (- e)))
  | _ => 0%Q
  end.

End PyDecimal.

Import PyDecimal.

(** ** The input record

    A value read from JSON is [None], a boolean, an integer, a float
    or a string; a float is kept as the text [str] gives for it.  A
    field of a shift that is missing from the JSON object is [None]
    at the option level. *)

Inductive json : Type :=
| JNone
| JBool (b : bool)
| JInt (n : Z)
| JFloat (repr : string)
| JStr (s : string).

(** What [format_hours] is handed: a [Decimal] or some other value. *)
Inductive pyvalue : Type :=
| VDecimal (d : Decimal)
| VJson (j : json).

Definition str (v : json) : string :=
  match v with
  | JNone => "None"
  | JBool true => "True"
  | JBool false => "False"
  | JInt n => str_int n
  | JFloat repr => repr
  | JStr s => s
  end.

(** [d.get(key, default)] on a field that may be missing. *)
Definition get {A : Type} (field : option A) (default : A) : A :=
  match field with
  | Some v => v
  | None => default
  end.

Record ShiftEntry : Type := mkShift {
  shift_start : option json;
  shift_end : option json;
  shift_hours : option json
}.

Record DayEntry : Type := mkDay {
  entry_day : option string;
  entry_date : option string;
  entry_shifts : option (list ShiftEntry)
}.

(** [Decimal("0")]. *)
Definition Decimal_0 : Decimal := Finite false 0 0.

(** ** The functions of generate_timesheet.py *)

Definition format_hours (value : pyvalue) : string :=
  match value with
  | VJson (JStr EmptyString) | VJson JNone => EmptyString
  | VDecimal d => format_2f d
  | VJson v =>
      match of_string (str v) with
      | Some d => format_2f d
      | None => str v
      end
  end.

(** A template literal, written with a backquote where the source
    has an escaped double quote. *)
Fixpoint q (literal : string) : string :=
  match literal with
  | EmptyString => EmptyString
  | String c r => String (if Ascii.eqb c "`" then "034"%char else c) (q r)
  end.

Definition wrap_editable_value (value extra_attrs : string) : string :=
  match value with
  | EmptyString => q "<span data-editable=`true`" ++ extra_attrs ++ "></span>"
  | _ => q "<span data-editable=`true`" ++ extra_attrs ++ ">" ++ value ++ "</span>"
  end.

(** The loop over the two formats: the first that parses wins. *)
Fixpoint to_24h_formats (cleaned : string) (fmts : list format) : string :=
  match fmts with
  | [] => EmptyString
  | fmt :: rest =>
      match strptime cleaned fmt with
      | Some parsed => strftime parsed FMT_H_M
      | None => to_24h_formats cleaned rest
      end
  end.

Definition to_24h (value : string) : string :=
  match value with
  | EmptyString => EmptyString
  | _ =>
      let cleaned := remove_char " " (upper (strip value)) in
      to_24h_formats cleaned [FMT_I_M_p; FMT_H_M]
  end.

Definition to_display_time (value : string) : string :=
  match value with
  | EmptyString => "--"
  | _ =>
      match strptime value FMT_H_M with
      | Some parsed => strftime parsed FMT_I_M_p
      | None => value
      end
  end.

Definition parse_decimal (value : json) : option Decimal :=
  match value with
  | JStr EmptyString | JNone => None
  | _ => of_string (str value)
  end.

Definition to_minutes (value : string) : option Z :=
  match value with
  | EmptyString => None
  | _ =>
      match split ":" value with
      | [part0; part1] =>
          match int part0, int part1 with
          | Some hours, Some minutes => Some (hours * 60 + minutes)
          | _, _ => None
          end
      | _ => None
      end
  end.

Definition hours_from_span (raw_start raw_end : string) : result Decimal :=
  match to_minutes raw_start, to_minutes raw_end with
  | Some start_minutes, Some end_minutes =>
      let end_minutes :=
        if end_minutes <? start_minutes then end_minutes + 24 * 60
        else end_minutes in
      let elapsed := Z.max (end_minutes - start_minutes) 0 in
      truediv (of_int elapsed) (of_int 60)
  | _, _ => Ok Decimal_0
  end.

(** *** build_rows *)

Fixpoint enumerate_from {A : Type} (i : Z) (l : list A) : list (Z * A) :=
  match l with
  | [] => []
  | x :: r => (i, x) :: enumerate_from (i + 1) r
  end.

Definition enumerate {A : Type} (l : list A) : list (Z * A) := enumerate_from 0 l.

(** A [for] loop whose body may raise. *)
Fixpoint for_each {A S : Type} (body : S -> A -> result S) (l : list A) (st : S)
  : result S :=
  match l with
  | [] => Ok st
  | x :: r => st' <- body st x ;; for_each body r st'
  end.

Definition start_entry (index shift_index : Z) (raw_start display_start : string)
  : string :=
  q "<div class=`shift-entry` "
  ++ q "data-day-index=`" ++ str_int index
  ++ q "` data-shift-index=`" ++ str_int shift_index ++ q "`>"
  ++ q "<span data-shift-display=`start` data-day-index=`" ++ str_int index ++ q "` "
  ++ q "data-shift-index=`" ++ str_int shift_index
  ++ q "` data-raw-value=`" ++ raw_start ++ q "`>"
  ++ display_start ++ "</span>"
  ++ q "<input class=`time-input` type=`time` data-shift-input=`start` "
  ++ q "data-day-index=`" ++ str_int index
  ++ q "` data-shift-index=`" ++ str_int shift_index ++ q "` "
  ++ q "value=`" ++ raw_start ++ q "`>"
  ++ q "<button type=`button` class=`shift-remove` "
  ++ q "data-day-index=`" ++ str_int index
  ++ q "` data-shift-index=`" ++ str_int shift_index ++ q "`>&times;</button>"
  ++ "</div>".

Definition end_entry (index shift_index : Z) (raw_end display_end : string)
  : string :=
  q "<div class=`shift-entry` "
  ++ q "data-day-index=`" ++ str_int index
  ++ q "` data-shift-index=`" ++ str_int shift_index ++ q "`>"
  ++ q "<span data-shift-display=`end` data-day-index=`" ++ str_int index ++ q "` "
  ++ q "data-shift-index=`" ++ str_int shift_index
  ++ q "` data-raw-value=`" ++ raw_end ++ q "`>"
  ++ display_end ++ "</span>"
  ++ q "<input class=`time-input` type=`time` data-shift-input=`end` "
  ++ q "data-day-index=`" ++ str_int index
  ++ q "` data-shift-index=`" ++ str_int shift_index ++ q "` "
  ++ q "value=`" ++ raw_end ++ q "`>"
  ++ "</div>".

Definition row (index : Z) (day date : string) (start_entries end_entries : list string)
    (hours_display : string) : string :=
  "<tr>"
  ++ "<td>" ++ wrap_editable_value day EmptyString ++ "</td>"
  ++ "<td>"
  ++ wrap_editable_value date
       (q " data-date-cell=`true` data-day-offset=`" ++ str_int index ++ q "`")
  ++ "</td>"
  ++ "<td>"
  ++ q "<div class=`shift-list` data-day-index=`" ++ str_int index
  ++ q "` data-shift-side=`start`>"
  ++ join EmptyString start_entries
  ++ "</div>"
  ++ q "<button type=`button` class=`shift-add` data-day-index=`" ++ str_int index
  ++ q "`>+ Add Shift</button>"
  ++ "</td>"
  ++ "<td>"
  ++ q "<div class=`shift-list` data-day-index=`" ++ str_int index
  ++ q "` data-shift-side=`end`>"
  ++ join EmptyString end_entries
  ++ "</div>"
  ++ "</td>"
  ++ q "<td class=`hours`><span data-day-hours=`true` data-hours-cell=`true` "
  ++ q "data-day-index=`" ++ str_int index ++ q "`>" ++ hours_display ++ "</span></td>"
  ++ "</tr>".

(** The variables of the loop over the shifts of one day. *)
Record day_state : Type := mkDayState {
  start_entries : list string;
  end_entries : list string;
  day_total : Decimal
}.

(** What one shift adds to the day total. *)
Definition hours_value_of (hours : option json) (raw_start raw_end : string)
  : result Decimal :=
  match parse_decimal (get hours JNone) with
  | Some hours_value => Ok hours_value
  | None => hours_from_span raw_start raw_end
  end.

Definition shift_body (index : Z) (st : day_state) (x : Z * ShiftEntry)
  : result day_state :=
  let '(shift_index, shift) := x in
  let raw_start := to_24h (str (get (shift_start shift) (JStr EmptyString))) in
  let raw_end := to_24h (str (get (shift_end shift) (JStr EmptyString))) in
  let display_start := escape (to_display_time raw_start) in
  let display_end := escape (to_display_time raw_end) in
  hours_value <- hours_value_of (shift_hours shift) raw_start raw_end ;;
  total' <- add (day_total st) hours_value ;;
  Ok (mkDayState
        (start_entries st ++ [start_entry index shift_index raw_start display_start])%list
        (end_entries st ++ [end_entry index shift_index raw_end display_end])%list
        total').

(** [entry.get(shifts) or []], then one empty shift for an empty list. *)
Definition shifts_of (entry : DayEntry) : list ShiftEntry :=
  match get (entry_shifts entry) [] with
  | [] => [mkShift None None None]
  | shifts => shifts
  end.

Definition hours_display_of (total : Decimal) : string :=
  if is_true total then format_hours (VDecimal total) else "0.00".

Definition entry_body (st : list string * Decimal) (x : Z * DayEntry)
  : result (list string * Decimal) :=
  let '(rows, total) := st in
  let '(index, entry) := x in
  let day := escape (get (entry_day entry) EmptyString) in
  let date := escape (get (entry_date entry) EmptyString) in
  d <- for_each (shift_body index) (enumerate (shifts_of entry))
         (mkDayState [] [] Decimal_0) ;;
  total' <- add total (day_total d) ;;
  let hours_display := hours_display_of (day_total d) in
  Ok ((rows ++ [row index day date (start_entries d) (end_entries d) hours_display])%list,
      total').

Definition row_separator : string :=
  String "010" "          ".

Definition build_rows (entries : list DayEntry) : result (string * string) :=
  st <- for_each entry_body (enumerate entries) ([], Decimal_0) ;;
  Ok (join row_separator (fst st), format_hours (VDecimal (snd st))).

(** ** The rest of generate_timesheet.py *)

(** An argument that is a scalar read from JSON or a list of them. *)
Inductive pyobj : Type :=
| PScalar (v : json)
| PList (items : list json).

(** [bool(v)]; a float is zero when its text is that of a zero. *)
Definition truthy_json (v : json) : bool :=
  match v with
  | JNone => false
  | JBool b => b
  | JInt n => negb (n =? 0)
  | JFloat repr => negb (String.eqb repr "0.0" || String.eqb repr "-0.0")
  | JStr EmptyString => false
  | JStr _ => true
  end.

Definition truthy (o : pyobj) : bool :=
  match o with
  | PScalar v => truthy_json v
  | PList [] => false
  | PList _ => true
  end.

(** [text in normalized]. *)
Fixpoint contains (text : string) (l : list string) : bool :=
  match l with
  | [] => false
  | x :: r => String.eqb text x || contains text r
  end.

(** The loop of [normalize], with the list built so far. *)
Fixpoint normalize_loop (values : list json) (normalized : list string)
  : list string :=
  match values with
  | [] => normalized
  | value :: rest =>
      let text := strip (str value) in
      match text with
      | EmptyString => normalize_loop rest normalized
      | _ =>
          if contains text normalized then normalize_loop rest normalized
          else normalize_loop rest (normalized ++ [text])%list
      end
  end.

Definition normalize (values : list json) : list string :=
  normalize_loop values [].

Definition build_title_payload (single multiple : pyobj) : string * string :=
  let collected :=
    if truthy multiple then
      match multiple with
      | PList items => items
      | PScalar v => [v]
      end
    else [] in
  let titles := normalize collected in
  let titles :=
    match titles with
    | [] =>
        match single with
        | PList items => normalize items
        | PScalar v => normalize [v]
        end
    | _ => titles
    end in
  match titles with
  | [] => ("--", EmptyString)
  | _ => (join "<br>" (map escape titles), join "|" titles)
  end.

(** The titles that [build_title_payload] settles on. *)
Definition chosen_titles (single multiple : pyobj) : list string :=
  let collected :=
    if truthy multiple then
      match multiple with
      | PList items => items
      | PScalar v => [v]
      end
    else [] in
  match normalize collected with
  | [] =>
      match single with
      | PList items => normalize items
      | PScalar v => normalize [v]
      end
  | titles => titles
  end.

(** The values that are not [None], in order. *)
Fixpoint not_none (values : list (option string)) : list string :=
  match values with
  | [] => []
  | Some val :: rest => val :: not_none rest
  | None :: rest => not_none rest
  end.

Definition wrap_editable_lines (values : list (option string)) (extra_attrs : string)
  : string :=
  match values with
  | [] => wrap_editable_value EmptyString extra_attrs
  | _ =>
      join "<br>"
        (map (fun val => wrap_editable_value val extra_attrs) (not_none values))
  end.

(** *** [string.Template.safe_substitute]

    The pattern of [Template] finds, from left to right, a dollar
    followed by a second dollar, by an identifier, by an identifier
    in braces, or by nothing it knows; the last is left as it is.
    The scanner below reads one character at a time and remembers
    what it has seen since the dollar. *)

Definition is_id_start (c : ascii) : bool :=
  Ascii.eqb c "_" || in_range 97 122 c || in_range 65 90 c.

Definition is_id_char (c : ascii) : bool := is_id_start c || is_digit c.

Inductive scan_state : Type :=
| Text
| Dollar
| Named (name : string)
| BraceOpen
| Braced (name : string).

Fixpoint lookup (key : string) (mapping : list (string * string)) : option string :=
  match mapping with
  | [] => None
  | (k, v) :: rest => if String.eqb key k then Some v else lookup key rest
  end.

(** What a placeholder becomes: its value, or itself when the mapping
    has no such key. *)
Definition substitute (mapping : list (string * string)) (name whole : string)
  : string :=
  match lookup name mapping with
  | Some v => v
  | None => whole
  end.

(** What is written for the state at the end of the text or in front
    of a character that does not continue it. *)
Definition flush (mapping : list (string * string)) (st : scan_state) : string :=
  match st with
  | Text => EmptyString
  | Dollar => "$"
  | Named name => substitute mapping name ("$" ++ name)
  | BraceOpen => "${"
  | Braced name => "${" ++ name
  end.

Fixpoint scan (mapping : list (string * string)) (st : scan_state) (s : string)
  : string :=
  match s with
  | EmptyString => flush mapping st
  | String c rest =>
      let text_step :=
        if Ascii.eqb c "$" then scan mapping Dollar rest
        else String c (scan mapping Text rest) in
      match st with
      | Text => text_step
      | Dollar =>
          if Ascii.eqb c "$" then "$" ++ scan mapping Text rest
          else if is_id_start c then
            scan mapping (Named (String c EmptyString)) rest
          else if Ascii.eqb c "{" then scan mapping BraceOpen rest
          else "$" ++ text_step
      | Named name =>
          if is_id_char c then
            scan mapping (Named (name ++ String c EmptyString)) rest
          else flush mapping st ++ text_step
      | BraceOpen =>
          if is_id_start c then scan mapping (Braced (String c EmptyString)) rest
          else "${" ++ text_step
      | Braced name =>
          if is_id_char c then
            scan mapping (Braced (name ++ String c EmptyString)) rest
          else if Ascii.eqb c "}" then
            substitute mapping name ("${" ++ name ++ "}") ++ scan mapping Text rest
          else flush mapping st ++ text_step
      end
  end.

Definition safe_substitute (template : string) (mapping : list (string * string))
  : string :=
  scan mapping Text template.

(** *** render *)

Record Signatures : Type := mkSignatures {
  employee_signature : option string;
  employee_signature_date : option string;
  supervisor_signature : option string;
  supervisor_signature_date : option string
}.

Record Timesheet : Type := mkTimesheet {
  client_name : option string;
  employee_name : option string;
  employee_title : option pyobj;
  employee_titles : option pyobj;
  employee_phone : option string;
  employee_email : option string;
  week_start : option string;
  week_end : option string;
  entries : option (list DayEntry);
  signatures : option Signatures
}.

(** The mapping handed to the template, once the rows are built. *)
Definition payload_of (data : Timesheet) (rows total_hours : string)
  : list (string * string) :=
  let '(title_display, title_values) :=
    build_title_payload
      (get (employee_title data) (PScalar (JStr EmptyString)))
      (get (employee_titles data) (PScalar JNone)) in
  let signatures := get (signatures data) (mkSignatures None None None None) in
  ([("client_name", escape (get (client_name data) EmptyString));
    ("employee_name", escape (get (employee_name data) EmptyString));
    ("employee_title_display", title_display);
    ("employee_title_values", escape title_values);
    ("employee_phone", escape (get (employee_phone data) EmptyString));
    ("employee_email", escape (get (employee_email data) EmptyString));
    ("week_start", escape (get (week_start data) EmptyString));
    ("week_end", escape (get (week_end data) EmptyString));
    ("rows", rows);
    ("total_hours", total_hours)]
   ++ [("employee_signature",
        escape (get (employee_signature signatures) EmptyString));
       ("employee_signature_date",
        escape (get (employee_signature_date signatures) EmptyString));
       ("supervisor_signature",
        escape (get (supervisor_signature signatures) EmptyString));
       ("supervisor_signature_date",
        escape (get (supervisor_signature_date signatures) EmptyString))])%list.

(** [data.get(entries, [])]. *)
Definition entries_of (data : Timesheet) : list DayEntry := get (entries data) [].

(** [render], given the text of the template file. *)
Definition render (template_text : string) (data : Timesheet) : result string :=
  built <- build_rows (entries_of data) ;;
  let '(rows, total_hours) := built in
  Ok (safe_substitute template_text (payload_of data rows total_hours)).

(** * Vocabulary of the statements *)

(** A canonical time text: two digits, a colon, two digits. *)
Definition HHMM (h m : Z) : string := pad2 h ++ ":" ++ pad2 m.

(** Minutes since midnight of the clock time [h]:[m]. *)
Definition minutes_of (h m : Z) : Z := h * 60 + m.

(** A count of minutes, in hours: [Decimal(n) / Decimal(60)]. *)
Definition hours_of_minutes (n : Z) : result Decimal :=
  truediv (of_int n) (of_int 60).

(** Values that the context can hold: what [add] and [truediv] return. *)
Definition in_context (d : Decimal) : Prop :=
  match d with
  | Finite _ c e =>
      0 <= c < 10 ^ prec /\ Etiny <= e <= Emax /\ ndigits c + e - prec <= Etop
  | Infinity _ => True
  | NaN _ signaling p => signaling = false /\ 0 <= p < 10 ^ prec
  end.


(** A time text that [hours_from_span] cannot read: empty, not two
    parts around one colon, or a part that is no integer. *)
Definition malformed (value : string) : Prop :=
  value = EmptyString
  \/ List.length (split ":" value) <> 2%nat
  \/ exists part, In part (split ":" value) /\ int part = None.

(** Checking a decidable property of every number below a bound. *)
Definition all_below (n : Z) (P : Z -> bool) : bool :=
  forallb P (map Z.of_nat (seq 0 (Z.to_nat n))).

(** What the functions make of the canonical text of [h]:[m]. *)
Definition check_canonical (h m : Z) : bool :=
  match strptime (HHMM h m) FMT_H_M with
  | Some parsed => (hour parsed =? h) && (minute parsed =? m)
  | None => false
  end
  && match to_minutes (HHMM h m) with
     | Some n => n =? minutes_of h m
     | None => false
     end
  && String.eqb (to_display_time (HHMM h m))
       (pad2 (hour12 h) ++ ":" ++ pad2 m ++ am_pm h).

(** The value of a day's minute count in hours: a decimal of at most
    28 digits, within 10^-26 of the quotient, and equal to it when
    the count is a multiple of three. *)
Definition check_quotient (n : Z) : bool :=
  match hours_of_minutes n with
  | Ok (Finite false c e as d) =>
      (0 <=? c) && (c <? 10 ^ prec)
      && Qle_bool (Qabs (to_Q d - (n # 60))) (1 # 10 ^ 26)
      && ((negb (n mod 3 =? 0)) || Qeq_bool (to_Q d) (n # 60))
  | _ => false
  end.

(** The characters that [html.escape] replaces. *)
Definition html_special (c : ascii) : bool :=
  Ascii.eqb c "&" || Ascii.eqb c "<" || Ascii.eqb c ">"
  || Ascii.eqb c "034" || Ascii.eqb c "'".

(** Two digits, a colon, two digits. *)
Definition five_characters (s : string) : Prop :=
  exists d1 d2 d3 d4,
    is_digit d1 = true /\ is_digit d2 = true
    /\ is_digit d3 = true /\ is_digit d4 = true
    /\ s = String d1 (String d2 (String ":" (String d3 (String d4 EmptyString)))).

Definition check_plain (h m : Z) : bool :=
  String.eqb (escape (HHMM h m)) (HHMM h m)
  && all_chars (fun c => negb (html_special c)) (HHMM h m)
  && all_chars is_digit (pad2 h) && all_chars is_digit (pad2 m).

(** The hour of a 12-hour text, with or without its leading zero. *)
Definition hour_text (h : Z) (s : string) : Prop :=
  s = str_int h \/ s = pad2 h.

Definition meridiem (pm : bool) : string := if pm then "PM" else "AM".

(** A 12-hour text for [h]:[m] AM or PM: the hour, a colon, two digits
    of minutes and the suffix in any letter case, with optional
    spaces before the suffix and whitespace around the whole. *)
Definition twelve_hour_text (h m : Z) (pm : bool) (X : string) : Prop :=
  exists pre ht mid sfx post,
    X = (pre ++ ht ++ ":" ++ pad2 m ++ mid ++ sfx ++ post)%string
    /\ all_chars is_space pre = true
    /\ all_chars is_space post = true
    /\ all_chars (Ascii.eqb " ") mid = true
    /\ hour_text h ht
    /\ upper sfx = meridiem pm.

(** The same time on the 24-hour clock. *)
Definition hour24 (h : Z) (pm : bool) : Z :=
  h mod 12 + (if pm then 12 else 0).

Definition check_core (h m : Z) (pm : bool) (ht : string) : bool :=
  let core := (ht ++ ":" ++ pad2 m)%string in
  let cleaned := (core ++ meridiem pm)%string in
  String.eqb (upper core) core
  && String.eqb (remove_char " " core) core
  && match core with
     | String c _ => negb (is_space c)
     | EmptyString => false
     end
  && String.eqb (to_24h_formats cleaned [FMT_I_M_p; FMT_H_M]) (HHMM (hour24 h pm) m)
  && String.eqb (to_display_time (HHMM (hour24 h pm) m))
       (pad2 h ++ ":" ++ pad2 m ++ meridiem pm).

Definition check_twelve (h m : Z) : bool :=
  check_core (h + 1) m false (str_int (h + 1))
  && check_core (h + 1) m false (pad2 (h + 1))
  && check_core (h + 1) m true (str_int (h + 1))
  && check_core (h + 1) m true (pad2 (h + 1)).

Definition result_map {A B : Type} (f : A -> B) (r : result A) : result B :=
  match r with
  | Ok a => Ok (f a)
  | Raise e => Raise e
  end.

(** The totals alone: what a shift does to the day total, and a day
    to the week total. *)
Definition shift_total (total : Decimal) (shift : ShiftEntry) : result Decimal :=
  let raw_start := to_24h (str (get (shift_start shift) (JStr EmptyString))) in
  let raw_end := to_24h (str (get (shift_end shift) (JStr EmptyString))) in
  hours_value <- hours_value_of (shift_hours shift) raw_start raw_end ;;
  add total hours_value.

Definition day_total_of (entry : DayEntry) : result Decimal :=
  for_each shift_total (shifts_of entry) Decimal_0.

Definition week_total (total : Decimal) (entry : DayEntry) : result Decimal :=
  d <- day_total_of entry ;; add total d.

(** Two shifts that add the same to a day total: the same shift, or
    shifts with the same explicit hours that parse as a decimal. *)
Definition same_contribution (a b : ShiftEntry) : Prop :=
  a = b
  \/ (shift_hours a = shift_hours b
      /\ exists d, parse_decimal (get (shift_hours a) JNone) = Some d).

Definition same_day (a b : DayEntry) : Prop :=
  Forall2 same_contribution (shifts_of a) (shifts_of b).

(** A span between two canonical times of the day, without explicit
    hours. *)
Record span : Type := mkSpan {
  start_h : Z; start_m : Z; end_h : Z; end_m : Z
}.

Definition span_ok (sp : span) : Prop :=
  (0 <= start_h sp < 24 /\ 0 <= start_m sp < 60)
  /\ (0 <= end_h sp < 24 /\ 0 <= end_m sp < 60).

(** The minutes from the start to the end, the end taken on the next
    day when it is earlier than the start. *)
Definition span_minutes (sp : span) : Z :=
  let s := minutes_of (start_h sp) (start_m sp) in
  let e := minutes_of (end_h sp) (end_m sp) in
  if e <? s then e + 24 * 60 - s else e - s.

Definition shift_of_span (sp : span) : ShiftEntry :=
  mkShift (Some (JStr (HHMM (start_h sp) (start_m sp))))
          (Some (JStr (HHMM (end_h sp) (end_m sp)))) None.

Definition total_minutes (spans : list span) : Z :=
  fold_right (fun sp acc => span_minutes sp + acc) 0 spans.

Definition week_minutes (days : list (list span)) : Z :=
  fold_right (fun spans acc => total_minutes spans + acc) 0 days.

Definition count_spans (days : list (list span)) : Z :=
  fold_right (fun spans acc => Z.of_nat (List.length spans) + acc) 0 days.

(** A decimal that is [v] hundredths, written with at most two
    decimal places. *)
Definition hundredths_of (d : Decimal) (v : Z) : Prop :=
  exists c e,
    d = Finite false c e /\ -2 <= e <= 0 /\ 0 <= c /\ c * 10 ^ (e + 2) = v.

(** Three times [n] minutes are five times [n] hundredths of an hour. *)
Definition check_exact (n : Z) : bool :=
  match hours_of_minutes (3 * n) with
  | Ok (Finite false c e) =>
      (-2 <=? e) && (e <=? 0) && (0 <=? c) && (c * 10 ^ (e + 2) =? 5 * n)
  | _ => false
  end.

Definition check_to_24h (h m : Z) : bool :=
  String.eqb (to_24h (HHMM h m)) (HHMM h m).

(** A group of the expression that matched, with the number it
    stands for. *)
Definition group_matched {A : Type} (lo hi : Z) (s : string)
    (k : string -> string -> option A) (r : A) : Prop :=
  exists g rest v,
    s = (g ++ rest)%string /\ int g = Some v /\ lo <= v <= hi
    /\ k g rest = Some r.

(** A duration of less than a day, written with digits after the
    point only. *)
Definition below_a_day (d : Decimal) : Prop :=
  exists c e, d = Finite false c e /\ e <= 0 /\ 0 <= c < 24 * 10 ^ (- e).

Definition check_day (n : Z) : bool :=
  match hours_of_minutes n with
  | Ok (Finite false c e) => (e <=? 0) && (0 <=? c) && (c <? 24 * 10 ^ (- e))
  | _ => false
  end.

(** The fragments and the row that build_rows writes for a shift and
    for a day. *)
Definition start_fragment_of (index : Z) (x : Z * ShiftEntry) : string :=
  let raw_start := to_24h (str (get (shift_start (snd x)) (JStr EmptyString))) in
  start_entry index (fst x) raw_start (escape (to_display_time raw_start)).

Definition end_fragment_of (index : Z) (x : Z * ShiftEntry) : string :=
  let raw_end := to_24h (str (get (shift_end (snd x)) (JStr EmptyString))) in
  end_entry index (fst x) raw_end (escape (to_display_time raw_end)).

Definition row_written (x : Z * DayEntry) (r : string) : Prop :=
  let '(index, entry) := x in
  exists total,
    day_total_of entry = Ok total
    /\ r = row index (escape (get (entry_day entry) EmptyString))
             (escape (get (entry_date entry) EmptyString))
             (map (start_fragment_of index) (enumerate (shifts_of entry)))
             (map (end_fragment_of index) (enumerate (shifts_of entry)))
             (hours_display_of total).

Definition check_display (h m : Z) : bool :=
  let display := to_display_time (HHMM h m) in
  String.eqb (escape display) display
  && (String.length display =? 7)%nat.



(** A shift whose hours field parses as a signalling NaN. *)
Definition signalling_hours (shift : ShiftEntry) : Prop :=
  exists s p, parse_decimal (get (shift_hours shift) JNone) = Some (NaN s true p).


(** A title as [normalize] keeps it: not empty, and with no
    whitespace left to strip. *)
Definition clean_title (t : string) : Prop :=
  t <> EmptyString /\ strip t = t.

(** The characters of markup that [html.escape] removes. *)
Definition is_markup (c : ascii) : bool :=
  Ascii.eqb c "<" || Ascii.eqb c ">" || Ascii.eqb c "034" || Ascii.eqb c "'".

(** The text seen since the last dollar, as the scanner holds it. *)
Definition pending (st : scan_state) : string :=
  match st with
  | Text => EmptyString
  | Dollar => "$"
  | Named name => "$" ++ name
  | BraceOpen => "${"
  | Braced name => "${" ++ name
  end.

(** A text without two dollars in a row; [after_dollar] says that a
    dollar comes just before it. *)
Fixpoint no_double_dollar (after_dollar : bool) (s : string) : bool :=
  match s with
  | EmptyString => true
  | String c rest =>
      if Ascii.eqb c "$" then negb after_dollar && no_double_dollar true rest
      else no_double_dollar false rest
  end.

Definition no_dollar (s : string) : bool :=
  all_chars (fun c => negb (Ascii.eqb c "$")) s.

(** A Python identifier in ASCII. *)
Definition identifier (name : string) : Prop :=
  exists c rest,
    name = String c rest /\ is_id_start c = true /\ all_chars is_id_char rest = true.

(** A text that does not go on with a character of an identifier. *)
Definition ends_identifier (post : string) : Prop :=
  match post with
  | EmptyString => True
  | String c _ => is_id_char c = false
  end.

(** The keys of the payload whose values are escaped. *)
Definition escaped_keys : list string :=
  ["client_name"; "employee_name"; "employee_title_values"; "employee_phone";
   "employee_email"; "week_start"; "week_end"; "employee_signature";
   "employee_signature_date"; "supervisor_signature"; "supervisor_signature_date"].

(** * Properties *)

(** ** The library functions on sample inputs

    The values are those the Python library returns. *)

Section LibraryExamples.

Example int_samples :
  map int [" 12 "; "-5"; "+5"; "1_0"; "_1"; "1_"; "1__0"; "- 5"; "0x10"; "--5"]
  = [Some 12; Some (-5); Some 5; Some 10; None; None; None; None; None; None].
Proof. reflexivity. Qed.

Example split_samples :
  map (split ":") ["a:b"; ":"; "9:30:00"; "930"]
  = [["a"; "b"]; [EmptyString; EmptyString]; ["9"; "30"; "00"]; ["930"]].
Proof. reflexivity. Qed.

Example strptime_I_M_p_samples :
  map (fun s => strptime s FMT_I_M_p)
    ["9:00AM"; "12:00AM"; "12:30PM"; "0:30AM"; "13:00PM"; "9:5PM"; "9:60PM"; "9:00"]
  = [Some (mkdatetime 9 0); Some (mkdatetime 0 0); Some (mkdatetime 12 30);
     None; None; Some (mkdatetime 21 5); None; None].
Proof. reflexivity. Qed.

Example strptime_H_M_samples :
  map (fun s => strptime s FMT_H_M)
    ["9:00"; "23:59"; "24:00"; "9:5"; "09:5x"; "9:00AM"]
  = [Some (mkdatetime 9 0); Some (mkdatetime 23 59); None;
     Some (mkdatetime 9 5); None; None].
Proof. reflexivity. Qed.

Example of_string_samples :
  map of_string
    ["7.5"; " 7.5 "; "1_000.5"; ".5"; "5."; "."; "1e5"; "1.e-5"; "-0";
     "inf"; "-Infinity"; "NaN012"; "-sNaN5"; "abc"; "True"; "1e"]
  = [Some (Finite false 75 (-1)); Some (Finite false 75 (-1));
     Some (Finite false 10005 (-1)); Some (Finite false 5 (-1));
     Some (Finite false 5 0); None; Some (Finite false 1 5);
     Some (Finite false 1 (-5)); Some (Finite true 0 0);
     Some (Infinity false); Some (Infinity true); Some (NaN false false 12);
     Some (NaN true true 5); None; None; None].
Proof. reflexivity. Qed.

Example truediv_samples :
  map hours_of_minutes [0; 3; 10; 480; 510; 815]
  = [Ok (Finite false 0 0); Ok (Finite false 5 (-2));
     Ok (Finite false 1666666666666666666666666667 (-28));
     Ok (Finite false 8 0); Ok (Finite false 85 (-1));
     Ok (Finite false 1358333333333333333333333333 (-26))].
Proof. vm_compute. reflexivity. Qed.

Example add_samples :
  add (Finite false 1 30) Decimal_0 = Ok (Finite false (10 ^ 27) 3)
  /\ add (Finite false 12345678901234567890123456789012 0) Decimal_0
     = Ok (Finite false 1234567890123456789012345679 4)
  /\ add Decimal_0 (Finite true 0 0) = Ok Decimal_0
  /\ add (Finite false 1 0) (Finite true 1 0) = Ok Decimal_0
  /\ add Decimal_0 (NaN false true 0) = Raise InvalidOperation
  /\ add (Infinity false) (Infinity true) = Raise InvalidOperation
  /\ add (Finite false 5 999999) (Finite false 5 999999) = Raise Overflow
  /\ add (Finite false 5 (-1000026)) (Finite false 5 (-1000027))
     = Ok (Finite false 6 Etiny).
Proof. vm_compute. repeat split; reflexivity. Qed.

Example format_2f_samples :
  map format_2f
    [Finite false 5 0; Finite false 12345 (-3); Finite false 12355 (-3);
     Finite false 99995 (-3); Finite true 1 (-3); Finite false 123 3;
     NaN true false 7; Infinity false]
  = ["5.00"; "12.34"; "12.36"; "100.00"; "-0.00"; "123000.00"; "-NaN7"; "Infinity"].
Proof. reflexivity. Qed.

Example to_24h_samples :
  map to_24h ["9:00 am"; " 12:30 pm "; "12:00AM"; "7:5"; "24:00"; "None"; "17:45"]
  = ["09:00"; "12:30"; "00:00"; "07:05"; EmptyString; EmptyString; "17:45"].
Proof. reflexivity. Qed.

(** One day with 09:00-12:00 and 13:00-17:00 shows 7.00 for the day
    and for the week. *)
Example build_rows_two_shifts :
  result_map snd
    (build_rows
       [mkDay (Some "Monday") (Some "2024-01-01")
          (Some [mkShift (Some (JStr "09:00")) (Some (JStr "12:00")) None;
                 mkShift (Some (JStr "13:00")) (Some (JStr "17:00")) None])])
  = Ok "7.00"
  /\ result_map (fun d => hours_display_of d)
       (day_total_of
          (mkDay (Some "Monday") (Some "2024-01-01")
             (Some [mkShift (Some (JStr "09:00")) (Some (JStr "12:00")) None;
                    mkShift (Some (JStr "13:00")) (Some (JStr "17:00")) None])))
     = Ok "7.00".
Proof. vm_compute. split; reflexivity. Qed.

End LibraryExamples.

(** ** Counting digits *)

Section Digits.

Lemma ndigits_fuel_pos (f : nat) (n : Z) : 1 <= ndigits_fuel f n.
Proof.
  revert n; induction f as [|f IH]; intros n; cbn [ndigits_fuel]; [lia|].
  destruct (n <? 10); [lia|]. specialize (IH (n / 10)); lia.
Qed.

Lemma ndigits_fuel_upper (f : nat) :
  forall n k, 0 <= n < 10 ^ k -> 1 <= k -> ndigits_fuel f n <= k.
Proof.
  induction f as [|f IH]; intros n k Hn Hk; cbn [ndigits_fuel]; [lia|].
  destruct (Z.ltb_spec n 10) as [Hlt|Hge]; [lia|].
  assert (Hk2 : 2 <= k).
  { destruct (Z.eq_dec k 1) as [->|]; [|lia]. change (10 ^ 1) with 10 in Hn; lia. }
  assert (Hdiv : 0 <= n / 10 < 10 ^ (k - 1)).
  { split; [apply Z.div_pos; lia|].
    apply Z.div_lt_upper_bound; [lia|].
    assert (E : 10 ^ k = 10 * 10 ^ (k - 1)).
    { replace k with (Z.succ (k - 1)) at 1 by lia.
      rewrite Z.pow_succ_r by lia; reflexivity. }
    lia. }
  specialize (IH (n / 10) (k - 1) Hdiv); lia.
Qed.

Lemma ndigits_fuel_lower (f : nat) :
  forall n, 0 <= n < 2 ^ (Z.of_nat f + 1) -> n < 10 ^ ndigits_fuel f n.
Proof.
  induction f as [|f IH]; intros n Hn.
  - cbn [ndigits_fuel]. change (2 ^ (Z.of_nat 0 + 1)) with 2 in Hn.
    change (10 ^ 1) with 10. lia.
  - cbn [ndigits_fuel].
    destruct (Z.ltb_spec n 10) as [Hlt|Hge]; [change (10 ^ 1) with 10; lia|].
    assert (Hdiv : 0 <= n / 10 < 2 ^ (Z.of_nat f + 1)).
    { split; [apply Z.div_pos; lia|].
      apply Z.div_lt_upper_bound; [lia|].
      replace (Z.of_nat (S f) + 1) with (Z.succ (Z.of_nat f + 1)) in Hn by lia.
      rewrite Z.pow_succ_r in Hn by lia. lia. }
    specialize (IH (n / 10) Hdiv).
    pose proof (ndigits_fuel_pos f (n / 10)) as Hpos.
    replace (1 + ndigits_fuel f (n / 10)) with (Z.succ (ndigits_fuel f (n / 10))) by lia.
    rewrite Z.pow_succ_r by lia.
    pose proof (Z.div_mod n 10 ltac:(lia)) as Hdm.
    pose proof (Z.mod_pos_bound n 10 ltac:(lia)) as Hmb.
    lia.
Qed.

Lemma ndigits_pos (n : Z) : 1 <= ndigits n.
Proof. apply ndigits_fuel_pos. Qed.

Lemma ndigits_upper (n k : Z) : 0 <= n < 10 ^ k -> 1 <= k -> ndigits n <= k.
Proof. apply ndigits_fuel_upper. Qed.

Lemma ndigits_lower (n : Z) : 0 <= n -> n < 10 ^ ndigits n.
Proof.
  intros Hn. unfold ndigits.
  destruct (Z.eq_dec n 0) as [->|Hnz]; [reflexivity|].
  apply ndigits_fuel_lower.
  rewrite Z2Nat.id by apply Z.log2_nonneg.
  pose proof (Z.log2_spec n ltac:(lia)) as Hl.
  replace (Z.log2 n + 1) with (Z.succ (Z.log2 n)) by lia. lia.
Qed.

Lemma pow10_pos (k : Z) : 0 <= k -> 0 < 10 ^ k.
Proof. intros; apply Z.pow_pos_nonneg; lia. Qed.

Lemma pow10_le (a b : Z) : 0 <= a <= b -> 10 ^ a <= 10 ^ b.
Proof. intros; apply Z.pow_le_mono_r; lia. Qed.

End Digits.

(** ** Fitting to the context *)

Section Fix.

Lemma round_half_even_range (c k : Z) :
  0 <= c -> 0 <= k -> c / 10 ^ k <= round_half_even c k <= c / 10 ^ k + 1.
Proof.
  intros Hc Hk. unfold round_half_even.
  destruct (_ || _); lia.
Qed.

Lemma round_half_even_nonneg (c k : Z) :
  0 <= c -> 0 <= k -> 0 <= round_half_even c k.
Proof.
  intros Hc Hk. pose proof (round_half_even_range c k Hc Hk).
  pose proof (pow10_pos k Hk). pose proof (Z.div_pos c (10 ^ k)). lia.
Qed.



(** A finite value that is not too large is fitted without raising,
    and keeps its sign. *)
Lemma dec_fix_ok (s : bool) (c e : Z) :
  0 <= c -> ndigits c + e - prec < Etop ->
  exists c' e', dec_fix s c e = Ok (Finite s c' e') /\ 0 <= c'.
Proof.
  intros Hc Hb. unfold dec_fix.
  destruct (Z.eqb_spec c 0) as [->|Hnz]; [eexists _, _; split; [reflexivity|lia]|].
  destruct (Z.ltb_spec Etop (ndigits c + e - prec)) as [?|_]; [lia|].
  set (em := Z.max (ndigits c + e - prec) Etiny).
  assert (Hem : em < Etop) by (unfold em, Etiny, Etop, Emin, Emax, prec in *; lia).
  destruct (Z.ltb_spec e em) as [Hlt|Hge].
  - pose proof (round_half_even_nonneg c (em - e) Hc ltac:(lia)) as Hr.
    destruct (prec <? ndigits (round_half_even c (em - e))).
    + destruct (Z.ltb_spec Etop (em + 1)) as [?|_]; [lia|].
      eexists _, _; split; [reflexivity|]. apply Z.div_pos; lia.
    + destruct (Z.ltb_spec Etop em) as [?|_]; [lia|].
      eexists _, _; split; [reflexivity|]. exact Hr.
  - eexists _, _; split; [reflexivity|lia].
Qed.


(** A value of the context is left as it is. *)
Lemma dec_fix_id (s : bool) (c e : Z) :
  in_context (Finite s c e) -> dec_fix s c e = Ok (Finite s c e).
Proof.
  cbn [in_context]. intros [[Hc Hlt] [He Hb]]. unfold dec_fix.
  destruct (Z.eqb_spec c 0) as [->|Hnz].
  - f_equal. f_equal. unfold Etiny, Emin, Emax, prec in *. lia.
  - destruct (Z.ltb_spec Etop (ndigits c + e - prec)) as [?|_]; [lia|].
    pose proof (ndigits_upper c prec (conj Hc Hlt) ltac:(unfold prec; lia)).
    destruct (Z.ltb_spec e (Z.max (ndigits c + e - prec) Etiny)) as [?|_]; [lia|].
    reflexivity.
Qed.

End Fix.

(** ** Sums *)

Section Add.





End Add.

(** ** Integers read from text *)

Section Int.

Lemma is_digit_value (c : ascii) : is_digit c = true -> 0 <= digit_value c <= 9.
Proof.
  unfold is_digit, in_range, digit_value.
  intros H. apply andb_true_iff in H. destruct H as [H1 H2].
  apply Z.leb_le in H1, H2. lia.
Qed.

Lemma scan_digits_bound (s : string) :
  forall prev acc n v n' rest,
    scan_digits s prev acc n = Some (v, n', rest) ->
    0 <= n -> 0 <= acc < 10 ^ n ->
    (0 <= v < 10 ^ n') /\ n <= n'.
Proof.
  induction s as [|c r IH]; intros prev acc n v n' rest; cbn [scan_digits].
  - destruct prev; [discriminate|]. intros [= <- <- <-] Hn Hacc. lia.
  - destruct (Ascii.eqb c "_").
    + destruct prev; [discriminate|]. apply IH.
    + destruct (is_digit c) eqn:Hd.
      * intros Hs Hn Hacc.
        pose proof (is_digit_value c Hd) as Hv.
        assert (Hstep : 0 <= acc * 10 + digit_value c < 10 ^ (n + 1)).
        { rewrite Z.pow_add_r by lia. change (10 ^ 1) with 10. lia. }
        destruct (IH _ _ _ _ _ _ Hs ltac:(lia) Hstep) as [H1 H2]. lia.
      * destruct prev; [discriminate|]. intros [= <- <- <-] Hn Hacc. lia.
Qed.

Lemma split_sign_cases (s : string) :
  fst (split_sign s) = 1 \/ fst (split_sign s) = -1.
Proof.
  destruct s as [|c r]; cbn [split_sign]; [left; reflexivity|].
  destruct (Ascii.eqb c "+"); [left; reflexivity|].
  destruct (Ascii.eqb c "-"); [right|left]; reflexivity.
Qed.

(** Whatever [int] accepts has at most [max_str_digits] digits. *)
Lemma int_bound (text : string) (z : Z) :
  int text = Some z -> Z.abs z < 10 ^ max_str_digits.
Proof.
  unfold int. pose proof (split_sign_cases (lskip_c text)) as Hsign.
  destruct (split_sign (lskip_c text)) as [sign s]. cbn [fst] in Hsign.
  destruct (starts_with "_" s); [discriminate|].
  destruct (scan_digits s false 0 0) as [[[v n] rest]|] eqn:Hscan; [|discriminate].
  destruct ((n =? 0) || negb (all_chars is_space_c rest)); [discriminate|].
  destruct (Z.ltb_spec max_str_digits n) as [?|Hn]; [discriminate|].
  intros [= <-].
  destruct (scan_digits_bound _ _ _ _ _ _ _ Hscan ltac:(lia)
              ltac:(change (10 ^ 0) with 1; lia)) as [Hv Hn'].
  assert (10 ^ n <= 10 ^ max_str_digits) by (apply pow10_le; lia).
  destruct Hsign as [-> | ->]; lia.
Qed.

End Int.

(** ** Minutes to hours *)

Section Quotient.

Lemma div_eucl_eq (a b : Z) : Z.div_eucl a b = (a / b, a mod b).
Proof. unfold Z.div, Z.modulo. destruct (Z.div_eucl a b); reflexivity. Qed.

Lemma strip_zeros_bound (fuel : nat) :
  forall c e c' e',
    0 <= c -> strip_zeros fuel c e = (c', e') ->
    0 <= c' <= c /\ e <= e' <= e + Z.of_nat fuel.
Proof.
  induction fuel as [|f IH]; intros c e c' e' Hc; cbn [strip_zeros].
  - intros [= <- <-]. lia.
  - destruct (c mod 10 =? 0).
    + intros Hs. pose proof (Z.div_pos c 10 Hc ltac:(lia)) as Hq.
      destruct (IH _ _ _ _ Hq Hs) as [H1 H2].
      assert (c / 10 <= c) by (apply Z.div_le_upper_bound; lia). lia.
    + intros [= <- <-]. lia.
Qed.

(** Dividing a count of minutes by sixty never raises, and the
    quotient is not negative. *)
Lemma hours_of_minutes_ok (K n : Z) :
  1 <= K <= 400000 -> 0 <= n < 10 ^ K ->
  exists c e, hours_of_minutes n = Ok (Finite false c e) /\ 0 <= c.
Proof.
  intros HK Hn. unfold hours_of_minutes, truediv, of_int.
  replace (n <? 0) with false by (symmetry; apply Z.ltb_ge; lia).
  rewrite (Z.abs_eq n) by lia.
  cbn [check_nans Z.ltb Z.compare Z.abs xorb Z.eqb].
  destruct (Z.eqb_spec n 0) as [->|Hnz]; [exists 0, 0; split; [reflexivity|lia]|].
  change (ndigits 60) with 2.
  pose proof (ndigits_pos n) as Hpos.
  pose proof (ndigits_upper n K Hn ltac:(lia)) as Hup.
  pose proof (ndigits_lower n ltac:(lia)) as Hlow.
  set (shift := 2 - ndigits n + prec + 1).
  assert (Hfix : forall c e, 0 <= c < 10 ^ (K + 32) -> e <= K ->
                 exists c' e', dec_fix false c e = Ok (Finite false c' e') /\ 0 <= c').
  { intros c e Hc He. apply dec_fix_ok; [lia|].
    pose proof (ndigits_upper c (K + 32) Hc ltac:(lia)).
    unfold Etop, Emax, prec. lia. }
  assert (Hbig : 10 ^ 31 < 10 ^ (K + 32)) by (apply Z.pow_lt_mono_r; lia).
  assert (HK10 : 10 ^ K < 10 ^ (K + 32)) by (apply Z.pow_lt_mono_r; lia).
  destruct (Z.leb_spec 0 shift) as [Hs|Hs].
  - rewrite div_eucl_eq.
    pose proof (pow10_pos shift Hs) as Hps.
    assert (Hq : 0 <= n * 10 ^ shift / 60 < 10 ^ 31).
    { split; [apply Z.div_pos; nia|].
      apply Z.div_lt_upper_bound; [lia|].
      assert (n * 10 ^ shift < 10 ^ 31); [|lia].
      replace 31 with (ndigits n + shift) by (unfold shift, prec; lia).
      rewrite Z.pow_add_r by lia. nia. }
    destruct (n * 10 ^ shift mod 60 =? 0).
    + destruct (strip_zeros (Z.to_nat shift) (n * 10 ^ shift / 60) (0 - 0 - shift))
        as [c' e'] eqn:Hst.
      destruct (strip_zeros_bound _ _ _ _ _ (proj1 Hq) Hst) as [H1 H2].
      rewrite Z2Nat.id in H2 by lia. apply Hfix; lia.
    + apply Hfix; [|lia]. destruct (_ =? 0); lia.
  - rewrite div_eucl_eq.
    pose proof (pow10_pos (- shift) ltac:(lia)) as Hps.
    assert (Hq : 0 <= n / (60 * 10 ^ (- shift)) <= n).
    { split; [apply Z.div_pos; lia|].
      apply Z.div_le_upper_bound; nia. }
    replace (Z.to_nat shift) with 0%nat by lia. cbn [strip_zeros].
    assert (He : 0 - 0 - shift <= K) by (unfold shift, prec; lia).
    destruct (n mod (60 * 10 ^ (- shift)) =? 0).
    + apply Hfix; lia.
    + apply Hfix; [|lia]. destruct (_ =? 0); lia.
Qed.

End Quotient.

(** ** Spans *)

Section Span.

Lemma to_minutes_malformed (value : string) :
  malformed value -> to_minutes value = None.
Proof.
  intros [-> | [Hlen | (part & Hin & Hint)]]; [reflexivity| |];
    (destruct value as [|c r]; [reflexivity|]); unfold to_minutes.
  - destruct (split ":" (String c r)) as [|a [|b [|x l]]]; try reflexivity.
    cbn [List.length] in Hlen. congruence.
  - destruct (split ":" (String c r)) as [|a [|b [|x l]]]; try reflexivity.
    destruct Hin as [<- | [<- | []]]; rewrite Hint; [reflexivity|].
    destruct (int a); reflexivity.
Qed.

Lemma to_minutes_bound (value : string) (m : Z) :
  to_minutes value = Some m -> Z.abs m < 61 * 10 ^ max_str_digits.
Proof.
  destruct value as [|c r]; [discriminate|]. unfold to_minutes.
  destruct (split ":" (String c r)) as [|a [|b [|x l]]]; try discriminate.
  destruct (int a) as [h|] eqn:Ha; [|discriminate].
  destruct (int b) as [k|] eqn:Hb; [|discriminate].
  intros [= <-]. apply int_bound in Ha, Hb. lia.
Qed.

Lemma to_Q_nonneg (c e : Z) : 0 <= c -> (0 <= to_Q (Finite false c e))%Q.
Proof.
  intros Hc. cbn [to_Q signed]. destruct (Z.leb_spec 0 e) as [He|He].
  - unfold Qle, inject_Z; cbn [Qnum Qden].
    pose proof (Z.pow_nonneg 10 e ltac:(lia)). nia.
  - unfold Qle; cbn [Qnum Qden]. lia.
Qed.

End Span.

(** C5. If either time text is empty, does not have exactly two
    colon-separated parts, or has a part that [int] refuses, then
    hours_from_span returns exactly Decimal 0; it does not raise. *)
Theorem C5_malformed_span_is_zero (raw_start raw_end : string) :
  malformed raw_start \/ malformed raw_end ->
  hours_from_span raw_start raw_end = Ok Decimal_0.
Proof.
  intros H. unfold hours_from_span.
  destruct H as [H | H]; apply to_minutes_malformed in H; rewrite H.
  - reflexivity.
  - destruct (to_minutes raw_start); reflexivity.
Qed.

Lemma C5_malformed_span_is_zero_witness :
  hours_from_span "9h30" "17:00" = Ok Decimal_0
  /\ hours_from_span "09:00" "17:00:00" = Ok Decimal_0
  /\ hours_from_span "09:00" "17:xx" = Ok Decimal_0.
Proof.
  split; [|split].
  - apply (C5_malformed_span_is_zero "9h30" "17:00").
    left; right; left. vm_compute. discriminate.
  - apply (C5_malformed_span_is_zero "09:00" "17:00:00").
    right; right; left. vm_compute. discriminate.
  - apply (C5_malformed_span_is_zero "09:00" "17:xx").
    right; right; right. exists "xx". split; [vm_compute; auto|reflexivity].
Defined.

(** C9. For every pair of texts hours_from_span returns a finite
    Decimal that is not negative: the difference of the minute counts
    is clamped at zero before the division, as for an hour above 23
    that the added day does not make up for. *)
Theorem C9_span_is_never_negative (raw_start raw_end : string) :
  (exists c e,
      hours_from_span raw_start raw_end = Ok (Finite false c e)
      /\ 0 <= c /\ (0 <= to_Q (Finite false c e))%Q)
  /\ hours_from_span "99:00" "00:00" = Ok Decimal_0.
Proof.
  split; [|reflexivity].
  assert (Hgoal : exists c e,
             hours_from_span raw_start raw_end = Ok (Finite false c e) /\ 0 <= c).
  { unfold hours_from_span.
    destruct (to_minutes raw_start) as [s|] eqn:Hs;
      [|exists 0, 0; split; [reflexivity|lia]].
    destruct (to_minutes raw_end) as [e|] eqn:He;
      [|exists 0, 0; split; [reflexivity|lia]].
    apply to_minutes_bound in Hs, He.
    apply (hours_of_minutes_ok (max_str_digits + 3)); [unfold max_str_digits; lia|].
    rewrite Z.pow_add_r by (unfold max_str_digits; lia).
    change (10 ^ 3) with 1000.
    assert (10 ^ 1 <= 10 ^ max_str_digits)
      by (apply pow10_le; unfold max_str_digits; lia).
    change (10 ^ 1) with 10 in *.
    destruct (e <? s); lia. }
  destruct Hgoal as (c & e & H & Hc).
  exists c, e. repeat split; [exact H|exact Hc|apply to_Q_nonneg; exact Hc].
Qed.

(** ** Canonical times *)

Section Canonical.

Lemma all_below_spec (n : Z) (P : Z -> bool) :
  all_below n P = true -> forall z, 0 <= z < n -> P z = true.
Proof.
  unfold all_below. rewrite forallb_forall. intros H z Hz.
  apply H. apply in_map_iff. exists (Z.to_nat z). split; [lia|].
  apply in_seq. lia.
Qed.

Lemma canonical_checked :
  all_below 24 (fun h => all_below 60 (check_canonical h)) = true.
Proof. vm_compute. reflexivity. Qed.

Lemma check_canonical_ok (h m : Z) :
  0 <= h < 24 -> 0 <= m < 60 -> check_canonical h m = true.
Proof.
  intros Hh Hm.
  apply (all_below_spec 60 (check_canonical h)); [|exact Hm].
  apply (all_below_spec 24 (fun h => all_below 60 (check_canonical h)));
    [exact canonical_checked|exact Hh].
Qed.

Lemma strptime_HHMM (h m : Z) :
  0 <= h < 24 -> 0 <= m < 60 ->
  strptime (HHMM h m) FMT_H_M = Some (mkdatetime h m).
Proof.
  intros Hh Hm. pose proof (check_canonical_ok h m Hh Hm) as H.
  unfold check_canonical in H.
  apply andb_true_iff in H. destruct H as [H _].
  apply andb_true_iff in H. destruct H as [H _].
  destruct (strptime (HHMM h m) FMT_H_M) as [[h' m']|]; [|discriminate].
  cbn [hour minute] in H. apply andb_true_iff in H. destruct H as [H1 H2].
  apply Z.eqb_eq in H1, H2. subst. reflexivity.
Qed.

Lemma to_minutes_HHMM (h m : Z) :
  0 <= h < 24 -> 0 <= m < 60 ->
  to_minutes (HHMM h m) = Some (minutes_of h m).
Proof.
  intros Hh Hm. pose proof (check_canonical_ok h m Hh Hm) as H.
  unfold check_canonical in H.
  apply andb_true_iff in H. destruct H as [H _].
  apply andb_true_iff in H. destruct H as [_ H].
  destruct (to_minutes (HHMM h m)) as [n|]; [|discriminate].
  apply Z.eqb_eq in H. subst. reflexivity.
Qed.

Lemma to_display_time_HHMM (h m : Z) :
  0 <= h < 24 -> 0 <= m < 60 ->
  to_display_time (HHMM h m) = pad2 (hour12 h) ++ ":" ++ pad2 m ++ am_pm h.
Proof.
  intros Hh Hm. pose proof (check_canonical_ok h m Hh Hm) as H.
  unfold check_canonical in H.
  apply andb_true_iff in H. destruct H as [_ H].
  apply String.eqb_eq in H. exact H.
Qed.

Lemma quotient_checked : all_below 1440 check_quotient = true.
Proof. vm_compute. reflexivity. Qed.

Lemma hours_of_minutes_day (n : Z) :
  0 <= n < 1440 ->
  exists c e,
    hours_of_minutes n = Ok (Finite false c e)
    /\ 0 <= c < 10 ^ prec
    /\ (Qabs (to_Q (Finite false c e) - (n # 60)) <= 1 # 10 ^ 26)%Q
    /\ (n mod 3 = 0 -> (to_Q (Finite false c e) == n # 60)%Q).
Proof.
  intros Hn. pose proof (all_below_spec _ _ quotient_checked n Hn) as H.
  unfold check_quotient in H.
  destruct (hours_of_minutes n) as [[[|] c e| |]|]; try discriminate.
  apply andb_true_iff in H. destruct H as [H H4].
  apply andb_true_iff in H. destruct H as [H H3].
  apply andb_true_iff in H. destruct H as [H1 H2].
  exists c, e. split; [reflexivity|].
  apply Z.leb_le in H1. apply Z.ltb_lt in H2. apply Qle_bool_iff in H3.
  repeat split; try assumption.
  intros H0. apply Z.eqb_eq in H0. rewrite H0 in H4. cbn [negb orb] in H4.
  apply Qeq_bool_iff in H4. exact H4.
Qed.

End Canonical.

(** ** What [strptime] accepts *)

Section Strptime.

Ltac ascii_cases c := destruct c as [[] [] [] [] [] [] [] []].

Lemma digit_cases (c : ascii) :
  is_digit c = true ->
  In c ["0"; "1"; "2"; "3"; "4"; "5"; "6"; "7"; "8"; "9"]%char.
Proof.
  ascii_cases c; vm_compute; intros H; try discriminate; tauto.
Qed.

Lemma int_one (c : ascii) :
  is_digit c = true -> int (String c EmptyString) = Some (digit_value c).
Proof.
  intros H. apply digit_cases in H.
  repeat (destruct H as [<- | H]; [reflexivity|]). destruct H.
Qed.

Lemma int_two (c1 c2 : ascii) :
  is_digit c1 = true -> is_digit c2 = true ->
  int (String c1 (String c2 EmptyString))
  = Some (10 * digit_value c1 + digit_value c2).
Proof.
  intros H1 H2. apply digit_cases in H1, H2.
  repeat (destruct H1 as [<- | H1];
          [repeat (destruct H2 as [<- | H2]; [reflexivity|]); destruct H2|]).
  destruct H1.
Qed.

Lemma in_range_code (lo hi : Z) (c : ascii) :
  in_range lo hi c = true -> lo <= code c <= hi.
Proof.
  unfold in_range. intros H. apply andb_true_iff in H.
  destruct H as [H1 H2]. apply Z.leb_le in H1, H2. lia.
Qed.

Lemma code_is_digit (c : ascii) : 48 <= code c <= 57 -> is_digit c = true.
Proof.
  intros H. unfold is_digit, in_range. apply andb_true_iff.
  split; apply Z.leb_le; lia.
Qed.

Lemma lit_eq (x c : ascii) : lit x c = true -> c = x.
Proof. unfold lit. intros H. apply Ascii.eqb_eq in H. congruence. Qed.

Context {A : Type}.

Lemma alt_inv {V : Type} (m1 m2 : @matcher A V) s k r :
  alt m1 m2 s k = Some r -> m1 s k = Some r \/ m2 s k = Some r.
Proof. unfold alt, orelse. destruct (m1 s k); auto. Qed.

Lemma two_inv (p1 p2 : ascii -> bool) s (k : string -> string -> option A) r :
  two p1 p2 s k = Some r ->
  exists c1 c2 rest,
    s = String c1 (String c2 rest) /\ p1 c1 = true /\ p2 c2 = true
    /\ k (String c1 (String c2 EmptyString)) rest = Some r.
Proof.
  unfold two. destruct s as [|c1 [|c2 rest]]; try discriminate.
  destruct (p1 c1) eqn:H1; [|discriminate].
  destruct (p2 c2) eqn:H2; [|discriminate]. cbn [andb].
  intros H. exists c1, c2, rest. auto.
Qed.

Lemma one_inv (p : ascii -> bool) s (k : string -> string -> option A) r :
  one p s k = Some r ->
  exists c rest,
    s = String c rest /\ p c = true /\ k (String c EmptyString) rest = Some r.
Proof.
  unfold one. destruct s as [|c rest]; try discriminate.
  destruct (p c) eqn:H1; [|discriminate].
  intros H. exists c, rest. auto.
Qed.

Ltac group_two H :=
  apply two_inv in H;
  destruct H as (c1 & c2 & rest & -> & H1 & H2 & H);
  exists (String c1 (String c2 EmptyString)), rest,
    (10 * digit_value c1 + digit_value c2);
  first [apply lit_eq in H1; subst c1 | apply in_range_code in H1];
  apply in_range_code in H2;
  split; [reflexivity|];
  split; [apply int_two; first [reflexivity | apply code_is_digit; lia]|];
  split; [unfold digit_value in *; try change (code "0") with 48;
          try change (code "1") with 49; try change (code "2") with 50; lia
         |exact H].

Ltac group_one H :=
  apply one_inv in H;
  destruct H as (c1 & rest & -> & H1 & H);
  exists (String c1 EmptyString), rest, (digit_value c1);
  apply in_range_code in H1;
  split; [reflexivity|];
  split; [apply int_one; apply code_is_digit; lia|];
  split; [unfold digit_value; lia|exact H].

Lemma re_H_inv s (k : string -> string -> option A) r :
  re_H s k = Some r -> group_matched 0 23 s k r.
Proof.
  unfold re_H. intros H.
  apply alt_inv in H. destruct H as [H|H]; [group_two H|].
  apply alt_inv in H. destruct H as [H|H]; [group_two H|].
  unfold is_digit in H. group_one H.
Qed.

Lemma re_I_inv s (k : string -> string -> option A) r :
  re_I s k = Some r -> group_matched 1 12 s k r.
Proof.
  unfold re_I. intros H.
  apply alt_inv in H. destruct H as [H|H]; [group_two H|].
  apply alt_inv in H. destruct H as [H|H]; [group_two H|].
  group_one H.
Qed.

Lemma re_M_inv s (k : string -> string -> option A) r :
  re_M s k = Some r -> group_matched 0 59 s k r.
Proof.
  unfold re_M. intros H.
  apply alt_inv in H. destruct H as [H|H]; [group_two H|].
  unfold is_digit in H. group_one H.
Qed.

End Strptime.

Section StrptimeRange.

Lemma regex_match_groups (fmt : format) (s : string) (f : found) :
  regex_match fmt s = Some f ->
  exists vh vm,
    int (g_hour f) = Some vh /\ int (g_M f) = Some vm /\ 0 <= vm <= 59
    /\ match fmt with
       | FMT_H_M => 0 <= vh <= 23
       | FMT_I_M_p => 1 <= vh <= 12
       end.
Proof.
  destruct fmt; cbn [regex_match]; intros H.
  - apply re_I_inv in H. destruct H as (gh & r1 & vh & -> & Hh & Hvh & H).
    apply one_inv in H. destruct H as (c & r2 & -> & _ & H).
    apply re_M_inv in H. destruct H as (gm & r3 & vm & -> & Hm & Hvm & H).
    apply alt_inv in H.
    destruct H as [H|H]; apply two_inv in H;
      destruct H as (c1 & c2 & r4 & -> & _ & _ & [= <-]);
      exists vh, vm; cbn [g_hour g_M]; auto.
  - apply re_H_inv in H. destruct H as (gh & r1 & vh & -> & Hh & Hvh & H).
    apply one_inv in H. destruct H as (c & r2 & -> & _ & H).
    apply re_M_inv in H. destruct H as (gm & r3 & vm & -> & Hm & Hvm & [= <-]).
    exists vh, vm; cbn [g_hour g_M]; auto.
Qed.

(** Whatever [strptime] returns is a time of the day. *)
Lemma strptime_range (s : string) (fmt : format) (parsed : datetime) :
  strptime s fmt = Some parsed ->
  0 <= hour parsed < 24 /\ 0 <= minute parsed < 60.
Proof.
  unfold strptime.
  destruct (regex_match fmt s) as [f|] eqn:E; [|discriminate].
  destruct (rest f); [|discriminate].
  destruct (regex_match_groups _ _ _ E) as (vh & vm & -> & -> & Hm & Hh).
  destruct fmt.
  - destruct (String.eqb (lower (g_p f)) "am").
    + intros [= <-]. cbn [hour minute]. destruct (Z.eqb_spec vh 12); lia.
    + destruct (String.eqb (lower (g_p f)) "pm"); intros [= <-];
        cbn [hour minute].
      * destruct (Z.eqb_spec vh 12); lia.
      * lia.
  - intros [= <-]. cbn [hour minute]. lia.
Qed.

Lemma plain_checked :
  all_below 24 (fun h => all_below 60 (check_plain h)) = true.
Proof. vm_compute. reflexivity. Qed.

(** The five characters of a canonical time need no escaping. *)
Lemma HHMM_plain (h m : Z) :
  0 <= h < 24 -> 0 <= m < 60 ->
  escape (HHMM h m) = HHMM h m
  /\ all_chars (fun c => negb (html_special c)) (HHMM h m) = true
  /\ five_characters (HHMM h m).
Proof.
  intros Hh Hm.
  pose proof (all_below_spec 60 _
                (all_below_spec 24 _ plain_checked h Hh) m Hm) as H.
  unfold check_plain in H.
  apply andb_true_iff in H. destruct H as [H H4].
  apply andb_true_iff in H. destruct H as [H H3].
  apply andb_true_iff in H. destruct H as [H1 H2].
  apply String.eqb_eq in H1. repeat split; try assumption.
  unfold pad2 in H3, H4. cbn [all_chars] in H3, H4.
  rewrite andb_true_r in H3, H4.
  apply andb_true_iff in H3, H4. destruct H3 as [Ha Hb], H4 as [Hc Hd].
  exists (digit_char (h / 10)), (digit_char (h mod 10)),
    (digit_char (m / 10)), (digit_char (m mod 10)).
  repeat split; assumption.
Qed.

Lemma to_24h_formats_shape (cleaned : string) (fmts : list format) :
  to_24h_formats cleaned fmts = EmptyString
  \/ exists h m, 0 <= h < 24 /\ 0 <= m < 60
                 /\ to_24h_formats cleaned fmts = HHMM h m.
Proof.
  induction fmts as [|fmt fmts IH]; cbn [to_24h_formats]; [left; reflexivity|].
  destruct (strptime cleaned fmt) as [parsed|] eqn:E; [|exact IH].
  right. destruct (strptime_range _ _ _ E) as [Hh Hm].
  exists (hour parsed), (minute parsed). repeat split; try lia.
Qed.

Lemma to_24h_shape (value : string) :
  to_24h value = EmptyString
  \/ exists h m, 0 <= h < 24 /\ 0 <= m < 60 /\ to_24h value = HHMM h m.
Proof.
  destruct value as [|c r]; [left; reflexivity|].
  apply to_24h_formats_shape.
Qed.

End StrptimeRange.



(** C3 as stated fails: the hour of the display form keeps its
    leading zero. *)
Lemma C3_counterexample :
  to_display_time "09:00" = "09:00AM" /\ to_display_time "09:00" <> "9:00AM".
Proof. split; [reflexivity|discriminate]. Qed.

(** C3, amended. to_display_time returns -- for the empty text; for
    text that parses as %H:%M it returns the 12-hour form with the
    hour zero-padded to two digits, the minutes and AM or PM; text
    that is not empty and does not parse is returned unchanged. *)
Theorem C3_display_time :
  to_display_time EmptyString = "--"
  /\ (forall h m, 0 <= h < 24 -> 0 <= m < 60 ->
        to_display_time (HHMM h m)
        = pad2 (hour12 h) ++ ":" ++ pad2 m ++ am_pm h)
  /\ (forall value parsed,
        value <> EmptyString -> strptime value FMT_H_M = Some parsed ->
        to_display_time value
        = pad2 (hour12 (hour parsed)) ++ ":" ++ pad2 (minute parsed)
            ++ am_pm (hour parsed))
  /\ (forall value,
        value <> EmptyString -> strptime value FMT_H_M = None ->
        to_display_time value = value).
Proof.
  split; [reflexivity|]. split; [exact to_display_time_HHMM|].
  split.
  - intros [|c r] parsed Hne Hp; [congruence|].
    unfold to_display_time. rewrite Hp. reflexivity.
  - intros [|c r] Hne Hp; [congruence|].
    unfold to_display_time. rewrite Hp. reflexivity.
Qed.

Lemma C3_display_time_witness :
  to_display_time (HHMM 13 5) = "01:05PM"
  /\ to_display_time "9:5" = "09:05AM"
  /\ to_display_time "noon" = "noon".
Proof.
  destruct C3_display_time as (_ & H2 & H3 & H4).
  split; [|split].
  - apply (H2 13 5); lia.
  - apply (H3 "9:5" (mkdatetime 9 5)); [discriminate|reflexivity].
  - apply (H4 "noon"); [discriminate|reflexivity].
Defined.

(** C10. The raw values that build_rows writes unescaped into the
    data-raw-value and value attributes of a shift are outputs of
    to_24h; every output of to_24h is empty or two digits, a colon and
    two digits, so it holds no quote, angle bracket or ampersand and
    escaping would not change it. *)
Theorem C10_raw_values_are_plain :
  (forall value,
      (to_24h value = EmptyString \/ five_characters (to_24h value))
      /\ all_chars (fun c => negb (html_special c)) (to_24h value) = true
      /\ escape (to_24h value) = to_24h value)
  /\ (forall index st shift_index shift st',
        shift_body index st (shift_index, shift) = Ok st' ->
        let raw_start := to_24h (str (get (shift_start shift) (JStr EmptyString))) in
        let raw_end := to_24h (str (get (shift_end shift) (JStr EmptyString))) in
        start_entries st'
        = (start_entries st
             ++ [start_entry index shift_index raw_start
                   (escape (to_display_time raw_start))])%list
        /\ end_entries st'
           = (end_entries st
                ++ [end_entry index shift_index raw_end
                      (escape (to_display_time raw_end))])%list).
Proof.
  split.
  - intros value.
    destruct (to_24h_shape value) as [-> | (h & m & Hh & Hm & ->)].
    + split; [left; reflexivity|split; reflexivity].
    + destruct (HHMM_plain h m Hh Hm) as (H1 & H2 & H3).
      split; [right; exact H3|split; assumption].
  - intros index st shift_index shift st'. unfold shift_body.
    destruct (hours_value_of _ _ _) as [v|]; [|discriminate].
    cbn [bind]. destruct (add (day_total st) v); [|discriminate].
    cbn [bind]. intros [= <-]. cbn [start_entries end_entries].
    split; reflexivity.
Qed.

Lemma C10_raw_values_are_plain_witness :
  exists st',
    shift_body 3 (mkDayState [] [] Decimal_0)
      (0, mkShift (Some (JStr "9:00 am")) (Some (JStr "<5pm>")) None)
    = Ok st'
    /\ start_entries st' = [start_entry 3 0 "09:00" "09:00AM"]
    /\ end_entries st' = [end_entry 3 0 EmptyString "--"].
Proof.
  eexists. split; [vm_compute; reflexivity|].
  apply (proj2 C10_raw_values_are_plain 3 (mkDayState [] [] Decimal_0) 0
           (mkShift (Some (JStr "9:00 am")) (Some (JStr "<5pm>")) None)).
  vm_compute; reflexivity.
Defined.

(** ** Cleaning a 12-hour text *)

Section Cleaning.

Lemma upper_app (a b : string) : upper (a ++ b) = (upper a ++ upper b)%string.
Proof. induction a as [|c a IH]; cbn [upper append]; [|rewrite IH]; reflexivity. Qed.

Lemma remove_char_app (x : ascii) (a b : string) :
  remove_char x (a ++ b) = (remove_char x a ++ remove_char x b)%string.
Proof.
  induction a as [|c a IH]; cbn [remove_char append]; [reflexivity|].
  destruct (Ascii.eqb c x); cbn [append]; rewrite IH; reflexivity.
Qed.

Lemma app_assoc_s (a b c : string) : ((a ++ b) ++ c = a ++ (b ++ c))%string.
Proof. induction a as [|x a IH]; cbn [append]; [|rewrite IH]; reflexivity. Qed.

Lemma app_empty_r (a : string) : (a ++ EmptyString)%string = a.
Proof. induction a as [|x a IH]; cbn [append]; [|rewrite IH]; reflexivity. Qed.

Lemma spaces_upper (mid : string) :
  all_chars (Ascii.eqb " ") mid = true ->
  upper mid = mid /\ remove_char " " mid = EmptyString.
Proof.
  induction mid as [|c r IH]; cbn [all_chars upper remove_char]; [auto|].
  intros H. apply andb_true_iff in H. destruct H as [Hc Hr].
  apply Ascii.eqb_eq in Hc. subst c. destruct (IH Hr) as [-> ->].
  split; reflexivity.
Qed.

Lemma lstrip_app_spaces (pre s : string) :
  all_chars is_space pre = true -> lstrip (pre ++ s) = lstrip s.
Proof.
  induction pre as [|c r IH]; cbn [all_chars append lstrip]; [reflexivity|].
  intros H. apply andb_true_iff in H. destruct H as [-> Hr]. auto.
Qed.

Lemma rstrip_spaces (post : string) :
  all_chars is_space post = true -> rstrip post = EmptyString.
Proof.
  induction post as [|c r IH]; cbn [all_chars rstrip]; [reflexivity|].
  intros H. apply andb_true_iff in H. destruct H as [Hc Hr].
  rewrite (IH Hr), Hc. reflexivity.
Qed.

Lemma rstrip_app_nonempty (s t : string) :
  rstrip t <> EmptyString -> rstrip (s ++ t) = (s ++ rstrip t)%string.
Proof.
  intros Ht. induction s as [|c r IH]; cbn [append rstrip]; [reflexivity|].
  rewrite IH. destruct (r ++ rstrip t)%string eqn:E; [|reflexivity].
  destruct r; cbn [append] in E; [contradiction|discriminate].
Qed.

Lemma rstrip_last (c : ascii) (post : string) :
  is_space c = false -> all_chars is_space post = true ->
  rstrip (String c post) = String c EmptyString.
Proof.
  intros Hc Hp. cbn [rstrip]. rewrite (rstrip_spaces post Hp), Hc. reflexivity.
Qed.

Lemma space_upper_fixed (c : ascii) : is_space c = true -> upper_char c = c.
Proof.
  destruct c as [[] [] [] [] [] [] [] []]; vm_compute; intros H;
    first [discriminate H | reflexivity].
Qed.

(** A suffix that upper-cases to AM or PM is two letters, the second
    of which is no whitespace. *)
Lemma suffix_shape (pm : bool) (sfx : string) :
  upper sfx = meridiem pm ->
  exists c1 c2,
    sfx = String c1 (String c2 EmptyString) /\ is_space c2 = false.
Proof.
  destruct sfx as [|c1 [|c2 [|c3 r]]]; cbn [upper];
    try (destruct pm; discriminate).
  intros H. exists c1, c2. split; [reflexivity|].
  destruct (is_space c2) eqn:Hs; [|reflexivity].
  pose proof (space_upper_fixed c2 Hs) as Hu.
  assert (Hm : upper_char c2 = "M"%char)
    by (destruct pm; cbn [meridiem] in H; injection H; auto).
  rewrite Hu in Hm. subst c2. vm_compute in Hs. discriminate Hs.
Qed.

Lemma to_24h_eq (X : string) :
  to_24h X
  = to_24h_formats (remove_char " " (upper (strip X))) [FMT_I_M_p; FMT_H_M].
Proof. destruct X; reflexivity. Qed.

(** What is left of a 12-hour text after cleaning. *)
Lemma cleaned_twelve (pre core mid sfx post : string) (pm : bool) :
  all_chars is_space pre = true ->
  all_chars is_space post = true ->
  all_chars (Ascii.eqb " ") mid = true ->
  upper sfx = meridiem pm ->
  upper core = core -> remove_char " " core = core ->
  (exists c r, core = String c r /\ is_space c = false) ->
  remove_char " " (upper (strip (pre ++ core ++ mid ++ sfx ++ post)))
  = (core ++ meridiem pm)%string.
Proof.
  intros Hpre Hpost Hmid Hsfx Hup Hrm (c & r & Hcore & Hc).
  destruct (suffix_shape pm sfx Hsfx) as (c1 & c2 & Esfx & Hc2).
  assert (Hstrip : strip (pre ++ core ++ mid ++ sfx ++ post)
                   = (core ++ mid ++ sfx)%string).
  { unfold strip.
    replace (pre ++ core ++ mid ++ sfx ++ post)%string
      with ((pre ++ core ++ mid ++ String c1 EmptyString) ++ String c2 post)%string
      by (rewrite Esfx, !app_assoc_s; reflexivity).
    rewrite rstrip_app_nonempty
      by (rewrite (rstrip_last c2 post Hc2 Hpost); discriminate).
    rewrite (rstrip_last c2 post Hc2 Hpost).
    rewrite !app_assoc_s. rewrite (lstrip_app_spaces pre _ Hpre).
    rewrite Hcore. cbn [append lstrip]. rewrite Hc.
    rewrite Esfx. reflexivity. }
  rewrite Hstrip, !upper_app, !remove_char_app.
  destruct (spaces_upper mid Hmid) as [-> Hmid0].
  rewrite Hup, Hrm, Hmid0, Hsfx. cbn [append].
  destruct pm; reflexivity.
Qed.

Lemma twelve_checked :
  all_below 12 (fun h => all_below 60 (check_twelve h)) = true.
Proof. vm_compute. reflexivity. Qed.

Lemma check_core_ok (h m : Z) (pm : bool) (ht : string) :
  1 <= h <= 12 -> 0 <= m < 60 -> hour_text h ht -> check_core h m pm ht = true.
Proof.
  intros Hh Hm Ht.
  pose proof (all_below_spec 60 _
                (all_below_spec 12 _ twelve_checked (h - 1) ltac:(lia)) m Hm) as H.
  unfold check_twelve in H. replace (h - 1 + 1) with h in H by lia.
  apply andb_true_iff in H. destruct H as [H H4].
  apply andb_true_iff in H. destruct H as [H H3].
  apply andb_true_iff in H. destruct H as [H1 H2].
  destruct Ht as [-> | ->], pm; assumption.
Qed.

End Cleaning.

(** C7. For a 12-hour text X of the clock time h:m AM or PM, with h
    from 1 to 12 and m from 0 to 59, to_24h(X) is that time on the
    24-hour clock, and to_display_time(to_24h(X)) is the 12-hour text
    of the same time with a two-digit hour. *)
Theorem C7_display_round_trip (h m : Z) (pm : bool) (X : string) :
  1 <= h <= 12 -> 0 <= m < 60 -> twelve_hour_text h m pm X ->
  to_24h X = HHMM (hour24 h pm) m
  /\ to_display_time (to_24h X) = (pad2 h ++ ":" ++ pad2 m ++ meridiem pm)%string
  /\ twelve_hour_text h m pm (to_display_time (to_24h X)).
Proof.
  intros Hh Hm (pre & ht & mid & sfx & post & -> & Hpre & Hpost & Hmid & Hht & Hsfx).
  pose proof (check_core_ok h m pm ht Hh Hm Hht) as H.
  unfold check_core in H.
  apply andb_true_iff in H. destruct H as [H H5].
  apply andb_true_iff in H. destruct H as [H H4].
  apply andb_true_iff in H. destruct H as [H H3].
  apply andb_true_iff in H. destruct H as [H1 H2].
  apply String.eqb_eq in H1, H2, H4, H5.
  assert (Hc : exists c r, (ht ++ ":" ++ pad2 m)%string = String c r
                           /\ is_space c = false).
  { destruct (ht ++ ":" ++ pad2 m)%string as [|c r]; [discriminate|].
    exists c, r. split; [reflexivity|]. destruct (is_space c); [discriminate|reflexivity]. }
  assert (E24 : to_24h (pre ++ ht ++ ":" ++ pad2 m ++ mid ++ sfx ++ post)
                = HHMM (hour24 h pm) m).
  { rewrite to_24h_eq.
    replace (pre ++ ht ++ ":" ++ pad2 m ++ mid ++ sfx ++ post)%string
      with (pre ++ (ht ++ ":" ++ pad2 m) ++ mid ++ sfx ++ post)%string
      by (rewrite !app_assoc_s; reflexivity).
    rewrite (cleaned_twelve pre _ mid sfx post pm Hpre Hpost Hmid Hsfx H1 H2 Hc).
    exact H4. }
  rewrite E24, H5. split; [reflexivity|]. split; [reflexivity|].
  exists EmptyString, (pad2 h), EmptyString, (meridiem pm), EmptyString.
  cbn [append all_chars]. rewrite app_empty_r.
  repeat split; [right; reflexivity|destruct pm; reflexivity].
Qed.

Lemma C7_display_round_trip_witness :
  to_24h "  9:05 pm " = "21:05"
  /\ to_display_time (to_24h "  9:05 pm ") = "09:05PM"
  /\ twelve_hour_text 9 5 true (to_display_time (to_24h "  9:05 pm ")).
Proof.
  apply (C7_display_round_trip 9 5 true "  9:05 pm "); [lia|lia|].
  exists "  ", "9", " ", "pm", " ".
  repeat split; left; reflexivity.
Defined.

(** ** The totals of build_rows *)

Section Totals.

Lemma shift_body_total (index : Z) (st : day_state) (j : Z) (shift : ShiftEntry) :
  result_map day_total (shift_body index st (j, shift))
  = shift_total (day_total st) shift.
Proof.
  unfold shift_body, shift_total.
  destruct (hours_value_of _ _ _) as [v|e]; [|reflexivity]. cbn [bind].
  destruct (add (day_total st) v); reflexivity.
Qed.

Lemma for_each_shift_total (index : Z) (shifts : list ShiftEntry) :
  forall j st,
    result_map day_total
      (for_each (shift_body index) (enumerate_from j shifts) st)
    = for_each shift_total shifts (day_total st).
Proof.
  induction shifts as [|sh l IH]; intros j st; [reflexivity|].
  cbn [enumerate_from for_each].
  pose proof (shift_body_total index st j sh) as H.
  destruct (shift_body index st (j, sh)) as [st'|e]; cbn [result_map bind] in *.
  - rewrite <- H. cbn [bind]. apply IH.
  - rewrite <- H. reflexivity.
Qed.

Lemma entry_body_total (rows : list string) (total : Decimal) (index : Z)
    (entry : DayEntry) :
  result_map snd (entry_body (rows, total) (index, entry))
  = week_total total entry.
Proof.
  unfold entry_body, week_total, day_total_of.
  pose proof (for_each_shift_total index (shifts_of entry) 0
                (mkDayState [] [] Decimal_0)) as H.
  unfold enumerate.
  destruct (for_each (shift_body index) _ _) as [d|e];
    cbn [result_map bind day_total] in *; rewrite <- H; [|reflexivity].
  cbn [bind]. destruct (add total (day_total d)); reflexivity.
Qed.

Lemma for_each_week_total (entries : list DayEntry) :
  forall i rows total,
    result_map snd (for_each entry_body (enumerate_from i entries) (rows, total))
    = for_each week_total entries total.
Proof.
  induction entries as [|en l IH]; intros i rows total; [reflexivity|].
  cbn [enumerate_from for_each].
  pose proof (entry_body_total rows total i en) as H.
  destruct (entry_body (rows, total) (i, en)) as [[rows' total']|e];
    cbn [result_map bind snd] in *; rewrite <- H; [|reflexivity].
  cbn [bind]. apply IH.
Qed.

Lemma build_rows_total (entries : list DayEntry) :
  result_map snd (build_rows entries)
  = result_map (fun total => format_hours (VDecimal total))
      (for_each week_total entries Decimal_0).
Proof.
  unfold build_rows, enumerate.
  rewrite <- (for_each_week_total entries 0 []).
  destruct (for_each entry_body _ _) as [[rows total]|e]; reflexivity.
Qed.

Lemma same_contribution_total (total : Decimal) (a b : ShiftEntry) :
  same_contribution a b -> shift_total total a = shift_total total b.
Proof.
  intros [-> | [Hh (d & Hd)]]; [reflexivity|].
  unfold shift_total, hours_value_of. rewrite <- Hh, Hd. reflexivity.
Qed.

Lemma same_shifts_total (l l' : list ShiftEntry) :
  Forall2 same_contribution l l' ->
  forall total, for_each shift_total l total = for_each shift_total l' total.
Proof.
  induction 1 as [|x y l l' Hxy _ IH]; intros t; [reflexivity|].
  cbn [for_each]. rewrite (same_contribution_total t x y Hxy).
  destruct (shift_total t y); cbn [bind]; [apply IH|reflexivity].
Qed.

Lemma same_day_total (a b : DayEntry) :
  same_day a b -> day_total_of a = day_total_of b.
Proof. intros H. apply same_shifts_total. exact H. Qed.

Lemma same_week_total (l l' : list DayEntry) :
  Forall2 same_day l l' ->
  forall total, for_each week_total l total = for_each week_total l' total.
Proof.
  induction 1 as [|x y l l' Hxy _ IH]; intros t; [reflexivity|].
  cbn [for_each]. unfold week_total at 1 3.
  rewrite (same_day_total x y Hxy).
  destruct (day_total_of y) as [d|]; cbn [bind]; [|reflexivity].
  destruct (add t d); cbn [bind]; [apply IH|reflexivity].
Qed.


End Totals.

(** C4. A shift whose hours field parses as a decimal adds exactly
    that value to the day total, whatever its start and end are; the
    span between start and end is used only when the field is absent
    or does not parse.  So neither the day totals nor the week total
    change when the start and end of such shifts change. *)
Theorem C4_explicit_hours_override :
  (forall index st shift_index shift d,
      parse_decimal (get (shift_hours shift) JNone) = Some d ->
      result_map day_total (shift_body index st (shift_index, shift))
      = add (day_total st) d)
  /\ (forall index st shift_index shift,
        parse_decimal (get (shift_hours shift) JNone) = None ->
        result_map day_total (shift_body index st (shift_index, shift))
        = (v <- hours_from_span
                 (to_24h (str (get (shift_start shift) (JStr EmptyString))))
                 (to_24h (str (get (shift_end shift) (JStr EmptyString)))) ;;
           add (day_total st) v))
  /\ (forall a b, same_day a b -> day_total_of a = day_total_of b)
  /\ (forall entries entries',
        Forall2 same_day entries entries' ->
        result_map snd (build_rows entries)
        = result_map snd (build_rows entries')).
Proof.
  split; [|split; [|split]].
  - intros index st j shift d Hd.
    rewrite shift_body_total. unfold shift_total, hours_value_of.
    rewrite Hd. reflexivity.
  - intros index st j shift Hd.
    rewrite shift_body_total. unfold shift_total, hours_value_of.
    rewrite Hd. reflexivity.
  - exact same_day_total.
  - intros entries entries' H. rewrite !build_rows_total.
    rewrite (same_week_total _ _ H). reflexivity.
Qed.

Lemma C4_explicit_hours_override_witness :
  result_map day_total
    (shift_body 0 (mkDayState [] [] Decimal_0)
       (0, mkShift (Some (JStr "09:00")) (Some (JStr "17:00")) (Some (JStr "2.5"))))
  = Ok (Finite false 25 (-1))
  /\ result_map snd
       (build_rows
          [mkDay None None
             (Some [mkShift (Some (JStr "09:00")) (Some (JStr "17:00"))
                      (Some (JStr "2.5"))])])
     = result_map snd
         (build_rows
            [mkDay None None
               (Some [mkShift (Some (JStr "22:00")) None (Some (JStr "2.5"))])]).
Proof.
  split.
  - apply (proj1 C4_explicit_hours_override 0 (mkDayState [] [] Decimal_0) 0
             (mkShift (Some (JStr "09:00")) (Some (JStr "17:00")) (Some (JStr "2.5")))
             (Finite false 25 (-1))).
    reflexivity.
  - apply (proj2 (proj2 (proj2 C4_explicit_hours_override))).
    constructor; [|constructor].
    constructor; [|constructor].
    right. split; [reflexivity|]. exists (Finite false 25 (-1)). reflexivity.
Defined.

Section EmptyDay.




End EmptyDay.



Section Format.



End Format.



(** ** Exact sums *)

Section ExactSums.

Lemma to_24h_HHMM (h m : Z) :
  0 <= h < 24 -> 0 <= m < 60 -> to_24h (HHMM h m) = HHMM h m.
Proof.
  intros Hh Hm.
  assert (H : all_below 24 (fun h => all_below 60 (check_to_24h h)) = true)
    by (vm_compute; reflexivity).
  apply String.eqb_eq.
  exact (all_below_spec 60 _ (all_below_spec 24 _ H h Hh) m Hm).
Qed.

Lemma span_minutes_range (sp : span) : span_ok sp -> 0 <= span_minutes sp < 1440.
Proof.
  intros [[H1 H2] [H3 H4]]. unfold span_minutes, minutes_of.
  destruct (Z.ltb_spec (end_h sp * 60 + end_m sp) (start_h sp * 60 + start_m sp)); lia.
Qed.

Lemma hours_from_span_canonical (sp : span) :
  span_ok sp ->
  hours_from_span (HHMM (start_h sp) (start_m sp)) (HHMM (end_h sp) (end_m sp))
  = hours_of_minutes (span_minutes sp).
Proof.
  intros [[H1 H2] [H3 H4]]. unfold hours_from_span.
  rewrite (to_minutes_HHMM _ _ H1 H2), (to_minutes_HHMM _ _ H3 H4).
  unfold span_minutes, hours_of_minutes, minutes_of.
  destruct (Z.ltb_spec (end_h sp * 60 + end_m sp) (start_h sp * 60 + start_m sp));
    rewrite Z.max_l by lia; reflexivity.
Qed.

Lemma shift_total_span (total : Decimal) (sp : span) :
  span_ok sp ->
  shift_total total (shift_of_span sp)
  = (v <- hours_of_minutes (span_minutes sp) ;; add total v).
Proof.
  intros Hok. pose proof Hok as [[H1 H2] [H3 H4]].
  unfold shift_total, shift_of_span, hours_value_of.
  cbn [shift_start shift_end shift_hours get str parse_decimal].
  rewrite (to_24h_HHMM _ _ H1 H2), (to_24h_HHMM _ _ H3 H4).
  rewrite (hours_from_span_canonical sp Hok). reflexivity.
Qed.

Lemma exact_checked : all_below 480 check_exact = true.
Proof. vm_compute. reflexivity. Qed.

Lemma hours_of_minutes_exact (n : Z) :
  0 <= n < 1440 -> n mod 3 = 0 ->
  exists d v, hours_of_minutes n = Ok d /\ hundredths_of d v
              /\ 3 * v = 5 * n /\ 0 <= v < 2400.
Proof.
  intros Hn H3.
  pose proof (Z.div_mod n 3 ltac:(lia)) as Hdm. rewrite H3, Z.add_0_r in Hdm.
  pose proof (all_below_spec _ _ exact_checked (n / 3) ltac:(lia)) as H.
  unfold check_exact in H. rewrite <- Hdm in H.
  destruct (hours_of_minutes n) as [[[|] c e| |]|]; try discriminate.
  apply andb_true_iff in H. destruct H as [H Hv].
  apply andb_true_iff in H. destruct H as [H Hc].
  apply andb_true_iff in H. destruct H as [He1 He2].
  apply Z.leb_le in He1, He2, Hc. apply Z.eqb_eq in Hv.
  exists (Finite false c e), (5 * (n / 3)).
  split; [reflexivity|]. split; [|lia].
  exists c, e. repeat split; assumption.
Qed.

Lemma hundredths_in_context (c e : Z) :
  -2 <= e <= 0 -> 0 <= c < 10 ^ 26 -> in_context (Finite false c e).
Proof.
  intros He Hc. cbn [in_context].
  pose proof (ndigits_upper c 26 Hc ltac:(lia)).
  unfold Etiny, Etop, Emin, Emax, prec.
  assert (10 ^ 26 < 10 ^ 28) by reflexivity.
  repeat split; lia.
Qed.

(** Decimals of at most two places add without rounding. *)
Lemma add_hundredths (a b : Decimal) (va vb : Z) :
  hundredths_of a va -> hundredths_of b vb -> va + vb < 10 ^ 26 ->
  exists d, add a b = Ok d /\ hundredths_of d (va + vb).
Proof.
  intros (c1 & e1 & -> & He1 & Hc1 & <-) (c2 & e2 & -> & He2 & Hc2 & <-) Hb.
  cbn [add check_nans signed andb].
  set (exp := Z.min e1 e2).
  set (z := c1 * 10 ^ (e1 - exp) + c2 * 10 ^ (e2 - exp)).
  assert (Hz : 0 <= z /\ z * 10 ^ (exp + 2) = c1 * 10 ^ (e1 + 2) + c2 * 10 ^ (e2 + 2)
               /\ z <= c1 * 10 ^ (e1 + 2) + c2 * 10 ^ (e2 + 2)).
  { assert (Hexp : -2 <= exp <= 0 /\ exp <= e1 /\ exp <= e2) by (unfold exp; lia).
    assert (P1 : 10 ^ (e1 + 2) = 10 ^ (e1 - exp) * 10 ^ (exp + 2))
      by (rewrite <- Z.pow_add_r by lia; f_equal; lia).
    assert (P2 : 10 ^ (e2 + 2) = 10 ^ (e2 - exp) * 10 ^ (exp + 2))
      by (rewrite <- Z.pow_add_r by lia; f_equal; lia).
    pose proof (pow10_pos (exp + 2) ltac:(lia)).
    pose proof (pow10_pos (e1 - exp) ltac:(lia)).
    pose proof (pow10_pos (e2 - exp) ltac:(lia)).
    rewrite P1, P2. unfold z. split; [nia|]. split; nia. }
  destruct Hz as (Hz0 & Hzv & Hzle).
  replace (if z =? 0 then false else z <? 0) with false
    by (destruct (z =? 0); [reflexivity|symmetry; apply Z.ltb_ge; lia]).
  rewrite (Z.abs_eq z Hz0).
  exists (Finite false z exp). split.
  - apply dec_fix_id. apply hundredths_in_context; unfold exp; lia.
  - exists z, exp. unfold exp in *. repeat split; lia.
Qed.

Lemma hundredths_to_Q (d : Decimal) (v n : Z) :
  hundredths_of d v -> 3 * v = 5 * n -> (to_Q d == n # 60)%Q.
Proof.
  intros (c & e & -> & He & Hc & <-) Hv. cbn [to_Q signed].
  assert (E : e = -2 \/ e = -1 \/ e = 0) by lia.
  destruct E as [-> | [-> | ->]].
  - change (c * 10 ^ (-2 + 2)) with (c * 1) in Hv.
    change (0 <=? -2) with false. change (Z.to_pos (10 ^ (- (-2)))) with 100%positive.
    unfold Qeq; cbn [Qnum Qden]. lia.
  - change (c * 10 ^ (-1 + 2)) with (c * 10) in Hv.
    change (0 <=? -1) with false. change (Z.to_pos (10 ^ (- (-1)))) with 10%positive.
    unfold Qeq; cbn [Qnum Qden]. lia.
  - change (c * 10 ^ (0 + 2)) with (c * 100) in Hv.
    change (0 <=? 0) with true. change (10 ^ 0) with 1.
    unfold Qeq, inject_Z; cbn [Qnum Qden]. lia.
Qed.

(** A day of spans that are multiples of three minutes. *)
Lemma sum_spans (spans : list span) :
  forall t vt nt,
    Forall span_ok spans ->
    Forall (fun sp => span_minutes sp mod 3 = 0) spans ->
    hundredths_of t vt -> 3 * vt = 5 * nt ->
    vt + 2400 * Z.of_nat (List.length spans) < 10 ^ 26 ->
    exists d v,
      for_each shift_total (map shift_of_span spans) t = Ok d
      /\ hundredths_of d v
      /\ 3 * v = 5 * (nt + total_minutes spans)
      /\ v <= vt + 2400 * Z.of_nat (List.length spans).
Proof.
  induction spans as [|sp l IH]; intros t vt nt Hok H3 Ht Hv Hb.
  - exists t, vt. cbn [map for_each total_minutes fold_right List.length].
    repeat split; try assumption; lia.
  - inversion Hok as [|? ? Hsp Hl]; subst.
    inversion H3 as [|? ? H3sp H3l]; subst.
    cbn [map for_each]. rewrite (shift_total_span t sp Hsp).
    destruct (hours_of_minutes_exact _ (span_minutes_range sp Hsp) H3sp)
      as (dv & v & -> & Hdv & Hv3 & Hvr).
    cbn [bind]. cbn [List.length] in Hb.
    destruct (add_hundredths t dv vt v Ht Hdv ltac:(lia)) as (t1 & -> & Ht1).
    cbn [bind].
    destruct (IH t1 (vt + v) (nt + span_minutes sp) Hl H3l Ht1 ltac:(lia)
                ltac:(lia)) as (d & w & Hd & Hw & Hw3 & Hwb).
    exists d, w. split; [exact Hd|]. split; [exact Hw|].
    cbn [total_minutes fold_right List.length]. fold (total_minutes l).
    split; lia.
Qed.

Lemma hundredths_zero : hundredths_of Decimal_0 0.
Proof. exists 0, 0. repeat split; lia. Qed.

Lemma hundredths_nonneg (d : Decimal) (v : Z) : hundredths_of d v -> 0 <= v.
Proof.
  intros (c & e & _ & He & Hc & <-).
  pose proof (pow10_pos (e + 2) ltac:(lia)). nia.
Qed.

Lemma day_of_spans (entry : DayEntry) (spans : list span) :
  entry_shifts entry = Some (map shift_of_span spans) ->
  Forall span_ok spans ->
  Forall (fun sp => span_minutes sp mod 3 = 0) spans ->
  2400 * Z.of_nat (List.length spans) < 10 ^ 26 ->
  exists d v,
    day_total_of entry = Ok d /\ hundredths_of d v
    /\ 3 * v = 5 * total_minutes spans
    /\ 0 <= v <= 2400 * Z.of_nat (List.length spans).
Proof.
  intros He Hok H3 Hb. unfold day_total_of, shifts_of. rewrite He.
  destruct spans as [|sp l].
  - exists Decimal_0, 0. cbn [map get]. split; [reflexivity|].
    split; [exact hundredths_zero|]. cbn [total_minutes fold_right List.length]. lia.
  - cbn [get map].
    change (shift_of_span sp :: map shift_of_span l)
      with (map shift_of_span (sp :: l)).
    destruct (sum_spans (sp :: l) Decimal_0 0 0 Hok H3 hundredths_zero
                ltac:(lia) ltac:(lia)) as (d & v & Hd & Hv & Hv3 & Hvb).
    exists d, v. split; [exact Hd|]. split; [exact Hv|]. split; [lia|].
    pose proof (hundredths_nonneg d v Hv). lia.
Qed.

Lemma count_spans_nonneg (days : list (list span)) : 0 <= count_spans days.
Proof.
  induction days as [|x l IH]; cbn [count_spans fold_right]; [lia|].
  fold (count_spans l). lia.
Qed.

Lemma sum_days (entries : list DayEntry) (days : list (list span)) :
  Forall2 (fun en spans => entry_shifts en = Some (map shift_of_span spans))
    entries days ->
  Forall (Forall span_ok) days ->
  Forall (Forall (fun sp => span_minutes sp mod 3 = 0)) days ->
  forall t vt nt,
    hundredths_of t vt -> 3 * vt = 5 * nt ->
    vt + 2400 * count_spans days < 10 ^ 26 ->
    exists d v,
      for_each week_total entries t = Ok d
      /\ hundredths_of d v
      /\ 3 * v = 5 * (nt + week_minutes days).
Proof.
  induction 1 as [|en spans entries days Hen _ IH]; intros Hok H3 t vt nt Ht Hv Hb.
  - exists t, vt. cbn [for_each week_minutes fold_right].
    repeat split; try assumption; lia.
  - inversion Hok as [|? ? Hsp Hl]; subst.
    inversion H3 as [|? ? H3sp H3l]; subst.
    cbn [count_spans fold_right] in Hb. fold (count_spans days) in Hb.
    pose proof (count_spans_nonneg days) as Hcnt.
    pose proof (hundredths_nonneg t vt Ht) as Hvt.
    destruct (day_of_spans en spans Hen Hsp H3sp ltac:(lia))
      as (dd & v & Hdd & Hdv & Hv3 & Hvr).
    cbn [for_each]. unfold week_total at 1. rewrite Hdd. cbn [bind].
    destruct (add_hundredths t dd vt v Ht Hdv ltac:(lia)) as (t1 & -> & Ht1).
    cbn [bind].
    destruct (IH Hl H3l t1 (vt + v) (nt + total_minutes spans) Ht1 ltac:(lia)
                ltac:(lia)) as (d & w & Hd & Hw & Hw3).
    exists d, w. split; [exact Hd|]. split; [exact Hw|].
    cbn [week_minutes fold_right]. fold (week_minutes days). lia.
Qed.

End ExactSums.

(** C2 as stated fails: ten minutes are not an exact decimal number
    of hours, and three such shifts do not add up to half an hour. *)
Lemma C2_counterexample :
  hours_from_span "09:00" "09:10"
  = Ok (Finite false 1666666666666666666666666667 (-28))
  /\ ~ (to_Q (Finite false 1666666666666666666666666667 (-28)) == 10 # 60)%Q
  /\ day_total_of
       (mkDay None None
          (Some [shift_of_span (mkSpan 9 0 9 10);
                 shift_of_span (mkSpan 10 0 10 10);
                 shift_of_span (mkSpan 11 0 11 10)]))
     = Ok (Finite false 5000000000000000000000000001 (-28))
  /\ ~ (to_Q (Finite false 5000000000000000000000000001 (-28)) == 30 # 60)%Q.
Proof.
  split; [vm_compute; reflexivity|].
  split; [intros H; vm_compute in H; discriminate H|].
  split; [vm_compute; reflexivity|].
  intros H; vm_compute in H; discriminate H.
Qed.

(** C2, amended. For canonical times the duration is the quotient of
    the elapsed minutes by 60 as a base-10 decimal of at most 28
    digits: within 10^-26 of the quotient, and equal to it when the
    minutes are a multiple of three.  Day totals and the week total
    are decimal sums of the durations; they are exact when every span
    is a multiple of three minutes (for up to 10^20 spans). *)
Theorem C2_decimal_durations_and_totals :
  (forall sp,
      span_ok sp ->
      let n := span_minutes sp in
      exists c e,
        hours_from_span (HHMM (start_h sp) (start_m sp))
          (HHMM (end_h sp) (end_m sp))
        = Ok (Finite false c e)
        /\ 0 <= c < 10 ^ prec
        /\ (Qabs (to_Q (Finite false c e) - (n # 60)) <= 1 # 10 ^ 26)%Q
        /\ (n mod 3 = 0 -> (to_Q (Finite false c e) == n # 60)%Q))
  /\ (forall entry spans,
        entry_shifts entry = Some (map shift_of_span spans) ->
        Forall span_ok spans ->
        Forall (fun sp => span_minutes sp mod 3 = 0) spans ->
        Z.of_nat (List.length spans) <= 10 ^ 20 ->
        exists d,
          day_total_of entry = Ok d
          /\ (to_Q d == total_minutes spans # 60)%Q)
  /\ (forall entries days,
        Forall2 (fun en spans => entry_shifts en = Some (map shift_of_span spans))
          entries days ->
        Forall (Forall span_ok) days ->
        Forall (Forall (fun sp => span_minutes sp mod 3 = 0)) days ->
        count_spans days <= 10 ^ 20 ->
        exists total,
          for_each week_total entries Decimal_0 = Ok total
          /\ (to_Q total == week_minutes days # 60)%Q
          /\ result_map snd (build_rows entries) = Ok (format_2f total)).
Proof.
  assert (Hbig : 2400 * 10 ^ 20 < 10 ^ 26) by reflexivity.
  split; [|split].
  - intros sp Hok n. rewrite (hours_from_span_canonical sp Hok).
    apply hours_of_minutes_day. apply span_minutes_range. exact Hok.
  - intros entry spans He Hok H3 Hlen.
    destruct (day_of_spans entry spans He Hok H3 ltac:(lia))
      as (d & v & Hd & Hv & Hv3 & _).
    exists d. split; [exact Hd|]. exact (hundredths_to_Q d v _ Hv Hv3).
  - intros entries days Hen Hok H3 Hcnt.
    destruct (sum_days entries days Hen Hok H3 Decimal_0 0 0 hundredths_zero
                ltac:(lia) ltac:(lia)) as (d & v & Hd & Hv & Hv3).
    exists d. split; [exact Hd|]. split.
    + apply (hundredths_to_Q d v _ Hv). lia.
    + rewrite build_rows_total, Hd. reflexivity.
Qed.

Lemma C2_decimal_durations_and_totals_witness :
  exists d,
    day_total_of
      (mkDay None None
         (Some (map shift_of_span [mkSpan 9 0 12 0; mkSpan 22 30 6 0])))
    = Ok d
    /\ (to_Q d == total_minutes [mkSpan 9 0 12 0; mkSpan 22 30 6 0] # 60)%Q.
Proof.
  apply (proj1 (proj2 C2_decimal_durations_and_totals)
           (mkDay None None
              (Some (map shift_of_span [mkSpan 9 0 12 0; mkSpan 22 30 6 0])))
           [mkSpan 9 0 12 0; mkSpan 22 30 6 0]).
  - reflexivity.
  - repeat constructor; cbn; lia.
  - repeat constructor.
  - vm_compute. congruence.
Defined.

(** * Further properties *)

(** X1. to_24h is idempotent: its output, empty or canonical, is a
    fixed point of to_24h. *)
Theorem X1_to_24h_idempotent (value : string) :
  to_24h (to_24h value) = to_24h value.
Proof.
  destruct (to_24h_shape value) as [-> | (h & m & Hh & Hm & ->)].
  - reflexivity.
  - apply to_24h_HHMM; assumption.
Qed.

(** X2. For canonical times with the end not earlier than the start
    hours_from_span converts end - start minutes to hours, without
    adding a day; equal times give Decimal 0, and 09:00 to 17:30
    gives 8.5. *)
Theorem X2_same_day_span :
  (forall hs ms he me,
      0 <= hs < 24 -> 0 <= ms < 60 -> 0 <= he < 24 -> 0 <= me < 60 ->
      minutes_of hs ms <= minutes_of he me ->
      hours_from_span (HHMM hs ms) (HHMM he me)
      = hours_of_minutes (minutes_of he me - minutes_of hs ms))
  /\ (forall h m, 0 <= h < 24 -> 0 <= m < 60 ->
        hours_from_span (HHMM h m) (HHMM h m) = Ok Decimal_0)
  /\ hours_from_span "09:00" "17:30" = Ok (Finite false 85 (-1)).
Proof.
  assert (H : forall hs ms he me,
             0 <= hs < 24 -> 0 <= ms < 60 -> 0 <= he < 24 -> 0 <= me < 60 ->
             minutes_of hs ms <= minutes_of he me ->
             hours_from_span (HHMM hs ms) (HHMM he me)
             = hours_of_minutes (minutes_of he me - minutes_of hs ms)).
  { intros hs ms he me Hhs Hms Hhe Hme Hle. unfold hours_from_span.
    rewrite (to_minutes_HHMM hs ms Hhs Hms), (to_minutes_HHMM he me Hhe Hme).
    replace (minutes_of he me <? minutes_of hs ms) with false
      by (symmetry; apply Z.ltb_ge; exact Hle).
    rewrite Z.max_l by lia. reflexivity. }
  split; [exact H|]. split; [|reflexivity].
  intros h m Hh Hm. rewrite (H h m h m Hh Hm Hh Hm ltac:(lia)).
  rewrite Z.sub_diag. reflexivity.
Qed.

Lemma X2_same_day_span_witness :
  hours_from_span (HHMM 9 0) (HHMM 17 30) = hours_of_minutes 510.
Proof.
  apply (proj1 X2_same_day_span 9 0 17 30); unfold minutes_of; lia.
Defined.

Section Day.

Lemma day_checked : all_below 1440 check_day = true.
Proof. vm_compute. reflexivity. Qed.

Lemma hours_of_minutes_below_a_day (n : Z) :
  0 <= n < 1440 -> exists d, hours_of_minutes n = Ok d /\ below_a_day d.
Proof.
  intros Hn. pose proof (all_below_spec _ _ day_checked n Hn) as H.
  unfold check_day in H.
  destruct (hours_of_minutes n) as [[[|] c e| |]|]; try discriminate.
  apply andb_true_iff in H. destruct H as [H H3].
  apply andb_true_iff in H. destruct H as [H1 H2].
  apply Z.leb_le in H1, H2. apply Z.ltb_lt in H3.
  eexists. split; [reflexivity|]. exists c, e. auto.
Qed.

Lemma zero_below_a_day : below_a_day Decimal_0.
Proof. exists 0, 0. split; [reflexivity|]. split; [lia|]. cbn. lia. Qed.

(** The span between two outputs of to_24h. *)
Lemma span_of_raw_values (a b : string) :
  exists d, hours_from_span (to_24h a) (to_24h b) = Ok d /\ below_a_day d.
Proof.
  destruct (to_24h_shape a) as [-> | (hs & ms & Hhs & Hms & ->)].
  { exists Decimal_0. split; [reflexivity|exact zero_below_a_day]. }
  destruct (to_24h_shape b) as [-> | (he & me & Hhe & Hme & ->)].
  { exists Decimal_0. split; [|exact zero_below_a_day].
    unfold hours_from_span. rewrite (to_minutes_HHMM hs ms Hhs Hms). reflexivity. }
  change (hours_from_span (HHMM hs ms) (HHMM he me))
    with (hours_from_span
            (HHMM (start_h (mkSpan hs ms he me)) (start_m (mkSpan hs ms he me)))
            (HHMM (end_h (mkSpan hs ms he me)) (end_m (mkSpan hs ms he me)))).
  rewrite (hours_from_span_canonical (mkSpan hs ms he me))
    by (repeat split; cbn [start_h start_m end_h end_m]; lia).
  apply hours_of_minutes_below_a_day. apply span_minutes_range.
  repeat split; cbn [start_h start_m end_h end_m]; lia.
Qed.

Lemma below_a_day_to_Q (d : Decimal) :
  below_a_day d -> (0 <= to_Q d /\ to_Q d < 24)%Q.
Proof.
  intros (c & e & -> & He & Hc). split; [apply to_Q_nonneg; lia|].
  cbn [to_Q signed].
  destruct (Z.leb_spec 0 e) as [H0|H0].
  - assert (e = 0) by lia. subst e. change (- 0) with 0 in Hc.
    change (10 ^ 0) with 1 in *. unfold Qlt, inject_Z; cbn [Qnum Qden]. lia.
  - pose proof (pow10_pos (- e) ltac:(lia)) as Hp.
    unfold Qlt; cbn [Qnum Qden]. rewrite Z2Pos.id by exact Hp. lia.
Qed.

End Day.

(** X3. Whatever the start and end of a shift are, the span that
    build_rows computes from their normalised forms is a Decimal from
    0 up to, but not including, 24 hours; it never raises. *)
Theorem X3_span_of_a_shift_is_below_a_day (start_text end_text : string) :
  exists d,
    hours_from_span (to_24h start_text) (to_24h end_text) = Ok d
    /\ below_a_day d /\ (0 <= to_Q d /\ to_Q d < 24)%Q.
Proof.
  destruct (span_of_raw_values start_text end_text) as (d & Hd & Hb).
  exists d. split; [exact Hd|]. split; [exact Hb|].
  apply below_a_day_to_Q. exact Hb.
Qed.

Section Fragments.

Lemma shift_body_entries (index : Z) (st st' : day_state) (x : Z * ShiftEntry) :
  shift_body index st x = Ok st' ->
  start_entries st' = (start_entries st ++ [start_fragment_of index x])%list
  /\ end_entries st' = (end_entries st ++ [end_fragment_of index x])%list.
Proof.
  destruct x as [j sh]. unfold shift_body.
  destruct (hours_value_of _ _ _) as [v|]; [|discriminate]. cbn [bind].
  destruct (add (day_total st) v); [|discriminate]. cbn [bind].
  intros [= <-]. split; reflexivity.
Qed.

Lemma for_each_shift_entries (index : Z) (l : list (Z * ShiftEntry)) :
  forall st d,
    for_each (shift_body index) l st = Ok d ->
    start_entries d = (start_entries st ++ map (start_fragment_of index) l)%list
    /\ end_entries d = (end_entries st ++ map (end_fragment_of index) l)%list.
Proof.
  induction l as [|x l IH]; intros st d; cbn [for_each map].
  - intros [= <-]. rewrite !app_nil_r. split; reflexivity.
  - destruct (shift_body index st x) as [st1|] eqn:E; [|discriminate].
    cbn [bind]. intros H. destruct (IH _ _ H) as [H1 H2].
    destruct (shift_body_entries _ _ _ _ E) as [E1 E2].
    rewrite H1, H2, E1, E2, <- !app_assoc. split; reflexivity.
Qed.

Lemma enumerate_from_fst {A : Type} (l : list A) :
  forall i, map fst (enumerate_from i l)
            = map (fun k => i + Z.of_nat k) (seq 0 (List.length l)).
Proof.
  induction l as [|x l IH]; intros i; cbn [enumerate_from map List.length seq];
    [reflexivity|].
  rewrite IH. f_equal; [cbn; lia|].
  rewrite <- seq_shift, map_map. apply map_ext. intros k. lia.
Qed.

Lemma entry_body_row (rows rows' : list string) (total total' : Decimal)
    (x : Z * DayEntry) :
  entry_body (rows, total) x = Ok (rows', total') ->
  exists r, rows' = (rows ++ [r])%list /\ row_written x r.
Proof.
  destruct x as [index entry]. unfold entry_body.
  pose proof (for_each_shift_total index (shifts_of entry) 0
                (mkDayState [] [] Decimal_0)) as Ht.
  pose proof (for_each_shift_entries index (enumerate (shifts_of entry))
                (mkDayState [] [] Decimal_0)) as He.
  unfold enumerate in *.
  destruct (for_each (shift_body index) _ _) as [d|]; [|discriminate].
  cbn [bind result_map day_total] in *.
  destruct (add total (day_total d)); [|discriminate]. cbn [bind].
  intros [= <- <-]. eexists. split; [reflexivity|].
  cbn [row_written]. exists (day_total d). split; [symmetry; exact Ht|].
  destruct (He d eq_refl) as [-> ->]. reflexivity.
Qed.

Lemma for_each_entry_rows (l : list (Z * DayEntry)) :
  forall rows total rows' total',
    for_each entry_body l (rows, total) = Ok (rows', total') ->
    exists new, rows' = (rows ++ new)%list /\ Forall2 row_written l new.
Proof.
  induction l as [|x l IH]; intros rows total rows' total'; cbn [for_each].
  - intros [= <- <-]. exists []. rewrite app_nil_r. split; [reflexivity|constructor].
  - destruct (entry_body (rows, total) x) as [[rows1 total1]|] eqn:E; [|discriminate].
    cbn [bind]. intros H.
    destruct (entry_body_row _ _ _ _ _ E) as (r & -> & Hr).
    destruct (IH _ _ _ _ H) as (new & -> & Hnew).
    exists (r :: new). rewrite <- app_assoc. split; [reflexivity|].
    constructor; assumption.
Qed.

Lemma display_checked :
  all_below 24 (fun h => all_below 60 (check_display h)) = true.
Proof. vm_compute. reflexivity. Qed.

End Fragments.

(** X4. The start and end fragments of a day follow its shifts in
    order, one pair for each shift, and carry the positions 0, 1, 2
    and so on as shift index. *)
Theorem X4_fragments_follow_the_shifts
    (index : Z) (shifts : list ShiftEntry) (d : day_state) :
  for_each (shift_body index) (enumerate shifts) (mkDayState [] [] Decimal_0)
  = Ok d ->
  start_entries d = map (start_fragment_of index) (enumerate shifts)
  /\ end_entries d = map (end_fragment_of index) (enumerate shifts)
  /\ List.length (start_entries d) = List.length shifts
  /\ List.length (end_entries d) = List.length shifts
  /\ map fst (enumerate shifts) = map Z.of_nat (seq 0 (List.length shifts)).
Proof.
  intros H. destruct (for_each_shift_entries _ _ _ _ H) as [H1 H2].
  cbn [start_entries end_entries app] in H1, H2.
  assert (Hfst : map fst (enumerate shifts)
                 = map Z.of_nat (seq 0 (List.length shifts))).
  { unfold enumerate. rewrite enumerate_from_fst. apply map_ext. intros k. lia. }
  assert (Hlen : List.length (enumerate shifts) = List.length shifts).
  { rewrite <- (length_map fst), Hfst, length_map, length_seq. reflexivity. }
  rewrite H1, H2, !length_map, Hlen. repeat split; assumption.
Qed.

Lemma X4_fragments_follow_the_shifts_witness :
  exists d,
    for_each (shift_body 1)
      (enumerate [mkShift (Some (JStr "9:00 am")) (Some (JStr "12:00")) None;
                  mkShift (Some (JStr "13:00")) None (Some (JInt 4))])
      (mkDayState [] [] Decimal_0)
    = Ok d
    /\ List.length (start_entries d) = 2%nat.
Proof.
  eexists. split; [vm_compute; reflexivity|].
  apply (X4_fragments_follow_the_shifts 1
           [mkShift (Some (JStr "9:00 am")) (Some (JStr "12:00")) None;
            mkShift (Some (JStr "13:00")) None (Some (JInt 4))]).
  vm_compute; reflexivity.
Defined.

(** X5. When build_rows returns, its text is the rows joined by the
    separator, one row for each day entry in the order of the input;
    the row of the day at position i carries i as day index, the
    escaped day and date, the fragments of its shifts and the display
    of its day total. *)
Theorem X5_rows_follow_the_entries
    (entries : list DayEntry) (text total_text : string) :
  build_rows entries = Ok (text, total_text) ->
  exists rows,
    text = join row_separator rows
    /\ Forall2 row_written (enumerate entries) rows
    /\ List.length rows = List.length entries.
Proof.
  unfold build_rows.
  destruct (for_each entry_body (enumerate entries) ([], Decimal_0))
    as [[rows total]|] eqn:E; [|discriminate].
  cbn [bind fst snd]. intros [= <- <-].
  destruct (for_each_entry_rows _ _ _ _ _ E) as (new & Hrows & Hnew).
  cbn [app] in Hrows. subst new.
  exists rows. split; [reflexivity|]. split; [exact Hnew|].
  rewrite <- (Forall2_length Hnew).
  rewrite <- (length_map fst). unfold enumerate. rewrite enumerate_from_fst.
  rewrite length_map, length_seq. reflexivity.
Qed.

Lemma X5_rows_follow_the_entries_witness :
  exists text total_text rows,
    build_rows [mkDay (Some "Mon") None None; mkDay (Some "Tue") None (Some [])]
    = Ok (text, total_text)
    /\ text = join row_separator rows
    /\ Forall2 row_written
         (enumerate [mkDay (Some "Mon") None None; mkDay (Some "Tue") None (Some [])])
         rows
    /\ List.length rows = 2%nat.
Proof.
  eexists. eexists.
  assert (H : build_rows
                [mkDay (Some "Mon") None None; mkDay (Some "Tue") None (Some [])]
              = Ok (fst (match build_rows
                                 [mkDay (Some "Mon") None None;
                                  mkDay (Some "Tue") None (Some [])]
                         with Ok p => p | Raise _ => (EmptyString, EmptyString) end),
                    snd (match build_rows
                                 [mkDay (Some "Mon") None None;
                                  mkDay (Some "Tue") None (Some [])]
                         with Ok p => p | Raise _ => (EmptyString, EmptyString) end)))
    by (vm_compute; reflexivity).
  destruct (X5_rows_follow_the_entries _ _ _ H) as (rows & H1 & H2 & H3).
  exists rows. split; [exact H|]. split; [exact H1|]. split; [exact H2|exact H3].
Defined.

(** X6. The display text of a fragment is -- exactly when the raw
    value is empty, and otherwise the seven characters of the 12-hour
    form; escaping it changes nothing. *)
Theorem X6_display_of_raw_value (value : string) :
  let raw := to_24h value in
  let display := to_display_time raw in
  escape display = display
  /\ (raw = EmptyString -> display = "--")
  /\ (raw <> EmptyString -> String.length display = 7%nat).
Proof.
  cbv zeta. destruct (to_24h_shape value) as [-> | (h & m & Hh & Hm & ->)].
  - split; [reflexivity|]. split; [reflexivity|congruence].
  - pose proof (all_below_spec 60 _
                  (all_below_spec 24 _ display_checked h Hh) m Hm) as H.
    unfold check_display in H. apply andb_true_iff in H. destruct H as [H1 H2].
    apply String.eqb_eq in H1. apply Nat.eqb_eq in H2.
    split; [exact H1|]. split; [|intros _; exact H2].
    intros H0. exfalso.
    assert (Hl : String.length (HHMM h m) = 5%nat) by reflexivity.
    rewrite H0 in Hl. discriminate.
Qed.

Lemma X6_display_of_raw_value_witness :
  to_display_time (to_24h "noon") = "--"
  /\ String.length (to_display_time (to_24h "7:05 pm")) = 7%nat.
Proof.
  split.
  - apply (proj1 (proj2 (X6_display_of_raw_value "noon"))). reflexivity.
  - apply (proj2 (proj2 (X6_display_of_raw_value "7:05 pm"))). discriminate.
Defined.

Section NoRaise.











(** A loop stops at an element on which its body always raises. *)
Lemma for_each_raises {A S : Type} (body : S -> A -> result S) (x : A) (l : list A) :
  In x l -> (forall st, exists e, body st x = Raise e) ->
  forall st, exists e, for_each body l st = Raise e.
Proof.
  intros Hin Hx. induction l as [|y l IH]; [destruct Hin|].
  intros st. cbn [for_each].
  destruct (body st y) as [st1|e] eqn:E; cbn [bind]; [|exists e; reflexivity].
  destruct Hin as [-> | Hin]; [|apply IH; exact Hin].
  destruct (Hx st) as (e & He). congruence.
Qed.

Lemma add_signalling (t : Decimal) (s : bool) (p : Z) :
  add t (NaN s true p) = Raise InvalidOperation.
Proof. destruct t as [? ? ?|?|? [|] ?]; reflexivity. Qed.

End NoRaise.



(** X8. A shift whose hours field parses as a signalling NaN, such
    as the text sNaN, makes build_rows raise; so does render. *)
Theorem X8_signalling_hours_abort_the_rows
    (entries : list DayEntry) (entry : DayEntry) (shift : ShiftEntry) :
  In entry entries -> In shift (shifts_of entry) -> signalling_hours shift ->
  (exists e, build_rows entries = Raise e)
  /\ forall template_text data,
       entries_of data = entries -> exists e, render template_text data = Raise e.
Proof.
  intros Hen Hsh (s & p & Hp).
  assert (Hs : forall t, exists e, shift_total t shift = Raise e).
  { intros t. exists InvalidOperation. unfold shift_total, hours_value_of.
    rewrite Hp. cbn [bind]. apply add_signalling. }
  assert (Hd : exists e, day_total_of entry = Raise e)
    by (apply (for_each_raises shift_total shift _ Hsh Hs)).
  assert (Hw : forall t, exists e, week_total t entry = Raise e).
  { intros t. destruct Hd as (e & He). exists e. unfold week_total.
    rewrite He. reflexivity. }
  destruct (for_each_raises week_total entry _ Hen Hw Decimal_0) as (e & He).
  assert (Hb : build_rows entries = Raise e).
  { pose proof (build_rows_total entries) as Hb. rewrite He in Hb.
    destruct (build_rows entries); [discriminate|]. cbn [result_map] in Hb.
    congruence. }
  split; [exists e; exact Hb|].
  intros template_text data Hdata. exists e. unfold render.
  rewrite Hdata, Hb. reflexivity.
Qed.

Lemma X8_signalling_hours_abort_the_rows_witness :
  exists e,
    build_rows
      [mkDay None None (Some [mkShift None None (Some (JStr "sNaN"))])]
    = Raise e.
Proof.
  apply (proj1 (X8_signalling_hours_abort_the_rows
                  [mkDay None None (Some [mkShift None None (Some (JStr "sNaN"))])]
                  (mkDay None None (Some [mkShift None None (Some (JStr "sNaN"))]))
                  (mkShift None None (Some (JStr "sNaN")))
                  ltac:(left; reflexivity) ltac:(left; reflexivity)
                  ltac:(exists false, 0; reflexivity))).
Defined.

Section Titles.

Lemma rstrip_lstrip (s : string) : rstrip (lstrip s) = lstrip (rstrip s).
Proof.
  induction s as [|c r IH]; [reflexivity|].
  cbn [lstrip rstrip]. destruct (is_space c) eqn:Hc.
  - rewrite IH. destruct (rstrip r) as [|x r'] eqn:E; [reflexivity|].
    cbn [lstrip]. rewrite Hc. reflexivity.
  - cbn [rstrip]. destruct (rstrip r) as [|x r'] eqn:E;
      cbn [lstrip]; rewrite ?Hc; reflexivity.
Qed.

Lemma lstrip_idem (s : string) : lstrip (lstrip s) = lstrip s.
Proof.
  induction s as [|c r IH]; [reflexivity|].
  cbn [lstrip]. destruct (is_space c) eqn:Hc; [exact IH|].
  cbn [lstrip]. rewrite Hc. reflexivity.
Qed.

Lemma rstrip_idem (s : string) : rstrip (rstrip s) = rstrip s.
Proof.
  induction s as [|c r IH]; [reflexivity|].
  cbn [rstrip]. destruct (rstrip r) as [|x r'] eqn:E.
  - destruct (is_space c) eqn:Hc; [reflexivity|].
    cbn [rstrip]. rewrite Hc. reflexivity.
  - cbn [rstrip]. cbn [rstrip] in IH. rewrite IH. reflexivity.
Qed.

Lemma strip_idem (s : string) : strip (strip s) = strip s.
Proof.
  unfold strip. rewrite rstrip_lstrip, rstrip_idem, lstrip_idem. reflexivity.
Qed.

Lemma contains_In (t : string) (l : list string) :
  contains t l = true <-> In t l.
Proof.
  induction l as [|x l IH]; cbn [contains In]; [split; [discriminate|tauto]|].
  rewrite orb_true_iff, IH, String.eqb_eq. split; intros [H|H]; auto.
Qed.

Lemma normalize_loop_spec (values : list json) :
  forall acc,
    NoDup acc -> Forall clean_title acc ->
    NoDup (normalize_loop values acc)
    /\ Forall clean_title (normalize_loop values acc)
    /\ (forall t, In t (normalize_loop values acc) <->
                  In t acc
                  \/ (t <> EmptyString
                      /\ exists v, In v values /\ t = strip (str v)))
    /\ exists new, normalize_loop values acc = (acc ++ new)%list.
Proof.
  induction values as [|v l IH]; intros acc Hnd Hcl; cbn [normalize_loop].
  - split; [exact Hnd|]. split; [exact Hcl|]. split.
    + intros t. split; [auto|]. intros [H|(_ & x & [] & _)]. exact H.
    + exists []. rewrite app_nil_r. reflexivity.
  - assert (Hskip :
      (strip (str v) = EmptyString \/ In (strip (str v)) acc) ->
      NoDup (normalize_loop l acc)
      /\ Forall clean_title (normalize_loop l acc)
      /\ (forall t, In t (normalize_loop l acc) <->
                    In t acc
                    \/ (t <> EmptyString
                        /\ exists x, In x (v :: l) /\ t = strip (str x)))
      /\ exists new, normalize_loop l acc = (acc ++ new)%list).
    { intros Hs. destruct (IH acc Hnd Hcl) as (H1 & H2 & H3 & H4).
      split; [exact H1|]. split; [exact H2|]. split; [|exact H4].
      intros t. rewrite H3. split.
      - intros [H|(Hne & x & Hx & Ht)]; [auto|].
        right. split; [exact Hne|]. exists x. split; [right; exact Hx|exact Ht].
      - intros [H|(Hne & x & [<-|Hx] & Ht)]; [auto| |].
        + destruct Hs as [Hs|Hs]; [congruence|]. left. congruence.
        + right. split; [exact Hne|]. exists x. auto. }
    destruct (strip (str v)) as [|c r] eqn:E; [apply Hskip; left; reflexivity|].
    destruct (contains (String c r) acc) eqn:Hc.
    { apply Hskip. right. apply contains_In. exact Hc. }
    assert (Hnot : ~ In (String c r) acc).
    { intros H. apply contains_In in H. congruence. }
    assert (Hnd' : NoDup (acc ++ [String c r])).
    { apply NoDup_app; [exact Hnd|repeat constructor; auto|].
      intros x Hx [<-|[]]. exact (Hnot Hx). }
    assert (Hcl' : Forall clean_title (acc ++ [String c r])).
    { apply Forall_app. split; [exact Hcl|]. constructor; [|constructor].
      split; [discriminate|]. rewrite <- E. apply strip_idem. }
    destruct (IH _ Hnd' Hcl') as (H1 & H2 & H3 & new & H4).
    split; [exact H1|]. split; [exact H2|]. split.
    + intros t. rewrite H3, in_app_iff. cbn [In]. split.
      * intros [[H|[<-|[]]]|(Hne & x & Hx & Ht)]; [auto| |].
        -- right. split; [discriminate|]. exists v. split; [left; reflexivity|].
           symmetry; exact E.
        -- right. split; [exact Hne|]. exists x. auto.
      * intros [H|(Hne & x & [<-|Hx] & Ht)]; [auto| |].
        -- left. right. left. congruence.
        -- right. split; [exact Hne|]. exists x. auto.
    + exists ([String c r] ++ new)%list. rewrite H4, <- app_assoc. reflexivity.
Qed.

Lemma normalize_spec (values : list json) :
  NoDup (normalize values)
  /\ Forall clean_title (normalize values)
  /\ (forall t, In t (normalize values) <->
                t <> EmptyString /\ exists v, In v values /\ t = strip (str v)).
Proof.
  destruct (normalize_loop_spec values [] (NoDup_nil _) (Forall_nil _))
    as (H1 & H2 & H3 & _).
  split; [exact H1|]. split; [exact H2|].
  intros t. unfold normalize. rewrite H3. cbn [In]. tauto.
Qed.

Lemma build_title_payload_chosen (single multiple : pyobj) :
  build_title_payload single multiple
  = match chosen_titles single multiple with
    | [] => ("--", EmptyString)
    | titles => (join "<br>" (map escape titles), join "|" titles)
    end.
Proof.
  unfold build_title_payload, chosen_titles.
  destruct (normalize (if truthy multiple then _ else _)); [|reflexivity].
  destruct single as [v|items];
    [destruct (normalize [v])|destruct (normalize items)]; reflexivity.
Qed.

Lemma chosen_titles_cases (single multiple : pyobj) :
  exists values, chosen_titles single multiple = normalize values.
Proof.
  unfold chosen_titles.
  destruct (normalize (if truthy multiple then _ else _)) as [|t l] eqn:E.
  - destruct single; eexists; reflexivity.
  - eexists. symmetry. exact E.
Qed.

End Titles.

(** X9. The titles that build_title_payload keeps have no duplicates,
    none is empty and none has whitespace around it; the display is
    their escaped forms joined by a line break and the raw value is
    the titles joined by a bar.  normalize keeps exactly the non-empty
    stripped texts of its values. *)
Theorem X9_titles_are_clean_and_distinct (single multiple : pyobj) :
  NoDup (chosen_titles single multiple)
  /\ Forall clean_title (chosen_titles single multiple)
  /\ build_title_payload single multiple
     = match chosen_titles single multiple with
       | [] => ("--", EmptyString)
       | titles => (join "<br>" (map escape titles), join "|" titles)
       end
  /\ (forall values t,
        In t (normalize values) <->
        t <> EmptyString /\ exists v, In v values /\ t = strip (str v))
  /\ build_title_payload (PScalar (JStr "Nurse"))
       (PList [JStr "RN"; JStr "RN"; JStr "Lead"])
     = ("RN<br>Lead", "RN|Lead").
Proof.
  destruct (chosen_titles_cases single multiple) as (values & E).
  destruct (normalize_spec values) as (H1 & H2 & _).
  split; [rewrite E; exact H1|]. split; [rewrite E; exact H2|].
  split; [apply build_title_payload_chosen|].
  split; [|reflexivity]. intros vs t. apply (normalize_spec vs).
Qed.



(** X11. wrap_editable_lines leaves out the values that are None: a
    list without None gives one span for each value, joined by line
    breaks; the empty list gives one empty span, but a list that
    holds only None gives the empty text, with no span at all. *)
Theorem X11_wrap_editable_lines (extra_attrs : string) :
  wrap_editable_lines [] extra_attrs = wrap_editable_value EmptyString extra_attrs
  /\ (forall values,
        values <> [] ->
        wrap_editable_lines (map Some values) extra_attrs
        = join "<br>" (map (fun val => wrap_editable_value val extra_attrs) values))
  /\ (forall values,
        values <> [] -> Forall (fun val => val = None) values ->
        wrap_editable_lines values extra_attrs = EmptyString)
  /\ (forall a b,
        not_none (a ++ b) = (not_none a ++ not_none b)%list).
Proof.
  assert (Hsome : forall values : list string, not_none (map Some values) = values).
  { induction values as [|x l IH]; cbn [map not_none]; [|rewrite IH]; reflexivity. }
  assert (Hnone : forall values, Forall (fun val : option string => val = None) values ->
                                 not_none values = []).
  { induction 1 as [|x l Hx _ IH]; [reflexivity|]. subst x. exact IH. }
  split; [reflexivity|]. split; [|split].
  - intros values Hne. unfold wrap_editable_lines.
    destruct values as [|x l]; [congruence|].
    cbn [map]. change (Some x :: map Some l) with (map Some (x :: l)).
    rewrite Hsome. reflexivity.
  - intros values Hne Hall. unfold wrap_editable_lines.
    destruct values as [|x l]; [congruence|]. rewrite (Hnone _ Hall). reflexivity.
  - induction a as [|[x|] a IH]; intros b; cbn [app not_none]; [reflexivity| |];
      rewrite IH; reflexivity.
Qed.

Lemma X11_wrap_editable_lines_witness :
  wrap_editable_lines [None; None] " x" = EmptyString
  /\ wrap_editable_lines (map Some ["a"; "b"]) EmptyString
     = join "<br>" (map (fun val => wrap_editable_value val EmptyString) ["a"; "b"]).
Proof.
  split.
  - apply (proj1 (proj2 (proj2 (X11_wrap_editable_lines " x")))).
    + discriminate.
    + repeat constructor.
  - apply (proj1 (proj2 (X11_wrap_editable_lines EmptyString))). discriminate.
Defined.

Lemma X9_titles_are_clean_and_distinct_witness :
  In "RN" (normalize [JStr EmptyString; JStr " RN "; JInt 7]).
Proof.
  apply (proj1 (proj2 (proj2 (proj2
           (X9_titles_are_clean_and_distinct (PScalar JNone) (PScalar JNone)))))
           [JStr EmptyString; JStr " RN "; JInt 7] "RN").
  split; [discriminate|]. exists (JStr " RN "). split; [right; left|]; reflexivity.
Defined.

Section Template.

Variable mapping : list (string * string).

Lemma append_cons (a : string) (c : ascii) (b : string) :
  ((a ++ String c EmptyString) ++ b)%string = (a ++ String c b)%string.
Proof. rewrite app_assoc_s. reflexivity. Qed.

Lemma scan_text_plain (pre s : string) :
  no_dollar pre = true ->
  scan mapping Text (pre ++ s) = (pre ++ scan mapping Text s)%string.
Proof.
  unfold no_dollar. induction pre as [|c r IH]; cbn [all_chars append]; [reflexivity|].
  intros H. apply andb_true_iff in H. destruct H as [Hc Hr].
  cbn [scan]. destruct (Ascii.eqb c "$"); [discriminate|].
  rewrite (IH Hr). reflexivity.
Qed.

Lemma scan_named_chars (more : string) :
  forall name post,
    all_chars is_id_char more = true ->
    scan mapping (Named name) (more ++ post)
    = scan mapping (Named (name ++ more)) post.
Proof.
  induction more as [|c r IH]; intros name post; cbn [all_chars append].
  - intros _. rewrite app_empty_r. reflexivity.
  - intros H. apply andb_true_iff in H. destruct H as [Hc Hr].
    cbn [scan]. rewrite Hc. rewrite (IH _ _ Hr), append_cons. reflexivity.
Qed.

Lemma scan_braced_chars (more : string) :
  forall name post,
    all_chars is_id_char more = true ->
    scan mapping (Braced name) (more ++ post)
    = scan mapping (Braced (name ++ more)) post.
Proof.
  induction more as [|c r IH]; intros name post; cbn [all_chars append].
  - intros _. rewrite app_empty_r. reflexivity.
  - intros H. apply andb_true_iff in H. destruct H as [Hc Hr].
    cbn [scan]. rewrite Hc. rewrite (IH _ _ Hr), append_cons. reflexivity.
Qed.

Lemma scan_text_step (c : ascii) (rest : string) :
  (if Ascii.eqb c "$" then scan mapping Dollar rest
   else String c (scan mapping Text rest))
  = scan mapping Text (String c rest).
Proof. reflexivity. Qed.

Lemma id_start_not_special (c : ascii) :
  is_id_start c = true -> Ascii.eqb c "$" = false /\ is_id_char c = true.
Proof.
  intros H. unfold is_id_char. rewrite H. split; [|reflexivity].
  destruct (Ascii.eqb_spec c "$") as [->|]; [discriminate H|reflexivity].
Qed.

Lemma close_brace_not_id : is_id_char "}" = false.
Proof. reflexivity. Qed.

End Template.

Section Unknown.

Lemma id_char_no_dollar (c : ascii) : is_id_char c = true -> Ascii.eqb c "$" = false.
Proof.
  intros H. destruct (Ascii.eqb_spec c "$") as [->|]; [discriminate H|reflexivity].
Qed.

Lemma id_start_is_id_char (c : ascii) : is_id_start c = true -> is_id_char c = true.
Proof. intros H. unfold is_id_char. rewrite H. reflexivity. Qed.

(** With nothing to substitute the scanner gives back what it read. *)
Lemma scan_nothing (s : string) :
  forall st,
    no_double_dollar (match st with Dollar => true | _ => false end) s = true ->
    scan [] st s = (pending st ++ s)%string.
Proof.
  induction s as [|c r IH]; intros st H.
  - destruct st; cbn [scan flush substitute lookup pending];
      rewrite ?app_empty_r; reflexivity.
  - cbn [no_double_dollar] in H.
    assert (Htext : forall b, no_double_dollar b (String c r) = true ->
                     (b = true -> Ascii.eqb c "$" = false) ->
                     (if Ascii.eqb c "$" then scan [] Dollar r
                      else String c (scan [] Text r)) = String c r).
    { intros b Hb Hc. cbn [no_double_dollar] in Hb.
      destruct (Ascii.eqb_spec c "$") as [->|Hne].
      - apply andb_true_iff in Hb. destruct Hb as [_ Hb].
        rewrite (IH Dollar Hb). reflexivity.
      - rewrite (IH Text Hb). reflexivity. }
    destruct st; cbn [scan pending flush substitute lookup].
    + apply (Htext false); [exact H|discriminate].
    + destruct (Ascii.eqb_spec c "$") as [->|Hne]; [discriminate H|].
      destruct (is_id_start c) eqn:Hs.
      * rewrite (IH (Named (String c EmptyString)) H). reflexivity.
      * destruct (Ascii.eqb_spec c "{") as [->|Hb].
        -- rewrite (IH BraceOpen H). reflexivity.
        -- rewrite (IH Text H). reflexivity.
    + destruct (is_id_char c) eqn:Hs.
      * rewrite (id_char_no_dollar c Hs) in H.
        rewrite (IH (Named (name ++ String c EmptyString)) H).
        cbn [pending append]. rewrite append_cons. reflexivity.
      * rewrite (Htext false); [|exact H|discriminate].
        cbn [append]. reflexivity.
    + destruct (is_id_start c) eqn:Hs.
      * rewrite (id_char_no_dollar c (id_start_is_id_char c Hs)) in H.
        rewrite (IH (Braced (String c EmptyString)) H). reflexivity.
      * rewrite (Htext false); [|exact H|discriminate]. reflexivity.
    + destruct (is_id_char c) eqn:Hs.
      * rewrite (id_char_no_dollar c Hs) in H.
        rewrite (IH (Braced (name ++ String c EmptyString)) H).
        cbn [pending append]. rewrite append_cons. reflexivity.
      * destruct (Ascii.eqb_spec c "}") as [->|Hb].
        -- cbn [Ascii.eqb] in H. rewrite (IH Text H).
           cbn [pending append]. rewrite !app_assoc_s. reflexivity.
        -- rewrite (Htext false); [|exact H|discriminate].
           cbn [append]. reflexivity.
Qed.

End Unknown.

(** X12. safe_substitute changes nothing in a template without a
    dollar, whatever the mapping; and with a mapping that has no key
    it gives back every template without two dollars in a row:
    placeholders stay as they are written. *)
Theorem X12_template_without_known_placeholders :
  (forall template mapping,
      no_dollar template = true -> safe_substitute template mapping = template)
  /\ (forall template,
        no_double_dollar false template = true ->
        safe_substitute template [] = template).
Proof.
  split.
  - intros template mapping H. unfold safe_substitute.
    rewrite <- (app_empty_r template) at 1.
    rewrite (scan_text_plain mapping template EmptyString H).
    cbn [scan flush]. apply app_empty_r.
  - intros template H. unfold safe_substitute.
    rewrite (scan_nothing template Text H). reflexivity.
Qed.

Lemma X12_template_without_known_placeholders_witness :
  safe_substitute "<td>a</td>" [("a", "b")] = "<td>a</td>"
  /\ safe_substitute "$name and ${other} for $5" [] = "$name and ${other} for $5".
Proof.
  split.
  - apply (proj1 X12_template_without_known_placeholders). reflexivity.
  - apply (proj2 X12_template_without_known_placeholders). reflexivity.
Defined.

(** A placeholder after plain text. *)
Lemma placeholder_substituted
    (mapping : list (string * string)) (pre name post : string) :
  no_dollar pre = true -> identifier name ->
  (ends_identifier post ->
   safe_substitute (pre ++ "$" ++ name ++ post) mapping
   = (pre ++ substitute mapping name ("$" ++ name)
        ++ safe_substitute post mapping)%string)
  /\ safe_substitute (pre ++ "${" ++ name ++ "}" ++ post) mapping
     = (pre ++ substitute mapping name ("${" ++ name ++ "}")
          ++ safe_substitute post mapping)%string.
Proof.
  intros Hpre (c & rest & -> & Hc & Hrest).
  destruct (id_start_not_special c Hc) as [Hd Hic].
  unfold safe_substitute. split.
  - intros Hpost. rewrite (scan_text_plain mapping pre _ Hpre). f_equal.
    cbn [append scan]. change (Ascii.eqb "$" "$") with true. cbn [scan].
    rewrite Hd, Hc.
    rewrite (scan_named_chars mapping rest (String c EmptyString) post Hrest).
    cbn [append].
    destruct post as [|x r]; cbn [scan flush]; [rewrite app_empty_r; reflexivity|].
    cbn [ends_identifier] in Hpost. rewrite Hpost. reflexivity.
  - rewrite (scan_text_plain mapping pre _ Hpre). f_equal.
    cbn [append scan]. change (Ascii.eqb "$" "$") with true. cbn [scan].
    change (Ascii.eqb "{" "$") with false. change (is_id_start "{") with false.
    change (Ascii.eqb "{" "{") with true. cbn [scan]. rewrite Hc.
    rewrite (scan_braced_chars mapping rest (String c EmptyString) _ Hrest).
    cbn [append scan]. change (is_id_char "}") with false.
    change (Ascii.eqb "}" "}") with true. reflexivity.
Qed.

(** X13. A placeholder written as a dollar and an identifier, or as
    a dollar and an identifier in braces, is replaced by the value of
    its key, and stays as written when the mapping has no such key.
    The value is written as it is, not scanned again, and the text
    after the placeholder is substituted on its own. *)
Theorem X13_placeholder_substitution
    (mapping : list (string * string)) (pre name post : string) :
  no_dollar pre = true -> identifier name ->
  (ends_identifier post ->
   safe_substitute (pre ++ "$" ++ name ++ post) mapping
   = (pre ++ substitute mapping name ("$" ++ name)
        ++ safe_substitute post mapping)%string)
  /\ safe_substitute (pre ++ "${" ++ name ++ "}" ++ post) mapping
     = (pre ++ substitute mapping name ("${" ++ name ++ "}")
          ++ safe_substitute post mapping)%string.
Proof. exact (placeholder_substituted mapping pre name post). Qed.

Lemma X13_placeholder_substitution_witness :
  safe_substitute "<b>$total_hours</b>" [("total_hours", "$7.00")]
  = "<b>" ++ "$7.00" ++ safe_substitute "</b>" [("total_hours", "$7.00")]
  /\ safe_substitute "<b>${rows}</b>" [("total_hours", "7.00")]
     = "<b>" ++ "${rows}" ++ safe_substitute "</b>" [("total_hours", "7.00")].
Proof.
  split.
  - apply (proj1 (X13_placeholder_substitution [("total_hours", "$7.00")]
                    "<b>" "total_hours" "</b>" eq_refl
                    ltac:(exists "t"%char, "otal_hours"; repeat split))).
    reflexivity.
  - apply (proj2 (X13_placeholder_substitution [("total_hours", "7.00")]
                    "<b>" "rows" "</b>" eq_refl
                    ltac:(exists "r"%char, "ows"; repeat split))).
Defined.

Section Payload.

Lemma all_chars_app (p : ascii -> bool) (a b : string) :
  all_chars p (a ++ b) = all_chars p a && all_chars p b.
Proof.
  induction a as [|c r IH]; cbn [append all_chars]; [reflexivity|].
  rewrite IH, andb_assoc. reflexivity.
Qed.

(** Escaped text holds no angle bracket and no quote. *)
Lemma escape_no_markup (s : string) :
  all_chars (fun c => negb (is_markup c)) (escape s) = true.
Proof.
  induction s as [|c r IH]; [reflexivity|].
  cbn [escape]. rewrite all_chars_app, IH, andb_true_r.
  unfold escape_char.
  destruct (Ascii.eqb c "&"); [reflexivity|].
  destruct (Ascii.eqb c "<") eqn:E3; [reflexivity|].
  destruct (Ascii.eqb c ">") eqn:E4; [reflexivity|].
  destruct (Ascii.eqb c "034") eqn:E1; [reflexivity|].
  destruct (Ascii.eqb c "'") eqn:E2; [reflexivity|].
  cbn [all_chars]. unfold is_markup. rewrite E1, E2, E3, E4. reflexivity.
Qed.

End Payload.

(** The values of the payload, key by key. *)
Lemma payload_values
    (data : Timesheet) (rows total_hours : string) :
  (forall key,
      In key escaped_keys ->
      exists value,
        lookup key (payload_of data rows total_hours) = Some value
        /\ all_chars (fun c => negb (is_markup c)) value = true)
  /\ lookup "client_name" (payload_of data rows total_hours)
     = Some (escape (get (client_name data) EmptyString))
  /\ lookup "rows" (payload_of data rows total_hours) = Some rows
  /\ lookup "total_hours" (payload_of data rows total_hours) = Some total_hours.
Proof.
  unfold payload_of.
  destruct (build_title_payload _ _) as [title_display title_values].
  split; [|repeat split].
  intros key Hin. unfold escaped_keys in Hin. cbn [In] in Hin.
  repeat (destruct Hin as [<- | Hin];
          [eexists; split; [reflexivity|apply escape_no_markup]|]).
  destruct Hin.
Qed.

(** X14. In the mapping that render hands to the template, the value
    of every free-text key (client and employee fields, week bounds,
    title values and the four signature fields) is there and holds
    no angle bracket and no quote; the rows and the total are passed
    as build_rows returned them. *)
Theorem X14_payload_values_are_escaped
    (data : Timesheet) (rows total_hours : string) :
  (forall key,
      In key escaped_keys ->
      exists value,
        lookup key (payload_of data rows total_hours) = Some value
        /\ all_chars (fun c => negb (is_markup c)) value = true)
  /\ lookup "client_name" (payload_of data rows total_hours)
     = Some (escape (get (client_name data) EmptyString))
  /\ lookup "rows" (payload_of data rows total_hours) = Some rows
  /\ lookup "total_hours" (payload_of data rows total_hours) = Some total_hours.
Proof. exact (payload_values data rows total_hours). Qed.

Lemma X14_payload_values_are_escaped_witness :
  exists value,
    lookup "employee_name"
      (payload_of
         (mkTimesheet None (Some "<i>Ann</i>") None None None None None None None None)
         "r" "t")
    = Some value
    /\ all_chars (fun c => negb (is_markup c)) value = true.
Proof.
  apply (proj1 (X14_payload_values_are_escaped
                  (mkTimesheet None (Some "<i>Ann</i>") None None None None None
                     None None None) "r" "t")).
  right. left. reflexivity.
Defined.



Section FormatParse.

Lemma digit_char_value (d : Z) :
  0 <= d <= 9 ->
  is_digit (digit_char d) = true /\ digit_value (digit_char d) = d.
Proof.
  intros H.
  assert (E : d = 0 \/ d = 1 \/ d = 2 \/ d = 3 \/ d = 4 \/ d = 5 \/ d = 6
              \/ d = 7 \/ d = 8 \/ d = 9) by lia.
  repeat (destruct E as [-> | E]; [split; reflexivity|]). subst d. split; reflexivity.
Qed.

Lemma value_of_digits_app (x y : string) :
  forall a, value_of_digits a (x ++ y) = value_of_digits (value_of_digits a x) y.
Proof.
  induction x as [|c r IH]; intros a; cbn [append value_of_digits]; [reflexivity|].
  apply IH.
Qed.

Lemma length_app_s (x y : string) :
  String.length (x ++ y) = (String.length x + String.length y)%nat.
Proof.
  induction x as [|c r IH]; cbn [append String.length]; [reflexivity|].
  rewrite IH. reflexivity.
Qed.

(** The digits that [digits_fuel] writes in front of [acc]. *)
Lemma digits_fuel_spec (f : nat) :
  forall n acc,
    0 <= n < 2 ^ (Z.of_nat f + 1) ->
    exists c ds,
      digits_fuel (S f) n acc = (String c ds ++ acc)%string
      /\ all_chars is_digit (String c ds) = true
      /\ forall a, value_of_digits a (String c ds)
                   = a * 10 ^ Z.of_nat (String.length (String c ds)) + n.
Proof.
  induction f as [|f IH]; intros n acc Hn.
  - change (2 ^ (Z.of_nat 0 + 1)) with 2 in Hn.
    cbn [digits_fuel].
    replace (n <? 10) with true by (symmetry; apply Z.ltb_lt; lia).
    rewrite Z.mod_small by lia.
    destruct (digit_char_value n ltac:(lia)) as [H1 H2].
    exists (digit_char n), EmptyString. split; [reflexivity|].
    split; [cbn [all_chars]; rewrite H1; reflexivity|].
    intros a. cbn [value_of_digits String.length]. rewrite H2.
    change (10 ^ Z.of_nat 1) with 10. reflexivity.
  - pose proof (Z.mod_pos_bound n 10 ltac:(lia)) as Hm.
    destruct (digit_char_value (n mod 10) ltac:(lia)) as [H1 H2].
    change (digits_fuel (S (S f)) n acc)
      with (if n <? 10 then String (digit_char (n mod 10)) acc
            else digits_fuel (S f) (n / 10) (String (digit_char (n mod 10)) acc)).
    destruct (Z.ltb_spec n 10) as [Hlt|Hge].
    + rewrite Z.mod_small in * by lia.
      exists (digit_char n), EmptyString. split; [reflexivity|].
      split; [cbn [all_chars]; rewrite H1; reflexivity|].
      intros a. cbn [value_of_digits String.length]. rewrite H2.
      change (10 ^ Z.of_nat 1) with 10. reflexivity.
    + assert (Hq : 0 <= n / 10 < 2 ^ (Z.of_nat f + 1)).
      { split; [apply Z.div_pos; lia|].
        apply Z.div_lt_upper_bound; [lia|].
        replace (Z.of_nat (S f) + 1) with (Z.succ (Z.of_nat f + 1)) in Hn by lia.
        rewrite Z.pow_succ_r in Hn by lia. lia. }
      destruct (IH (n / 10) (String (digit_char (n mod 10)) acc) Hq)
        as (c & ds & E & Hd & Hv).
      exists c, (ds ++ String (digit_char (n mod 10)) EmptyString)%string.
      split; [rewrite E; cbn [append]; rewrite append_cons; reflexivity|].
      split.
      * change (String c (ds ++ String (digit_char (n mod 10)) EmptyString))
          with (String c ds ++ String (digit_char (n mod 10)) EmptyString)%string.
        rewrite all_chars_app, Hd. cbn [all_chars]. rewrite H1. reflexivity.
      * intros a.
        change (String c (ds ++ String (digit_char (n mod 10)) EmptyString))
          with (String c ds ++ String (digit_char (n mod 10)) EmptyString)%string.
        rewrite value_of_digits_app, Hv. cbn [value_of_digits]. rewrite H2.
        rewrite length_app_s. cbn [String.length].
        rewrite Nat2Z.inj_add, Z.pow_add_r by lia.
        change (10 ^ Z.of_nat 1) with 10.
        pose proof (Z.div_mod n 10 ltac:(lia)). lia.
Qed.

Lemma digits_of_spec (n : Z) :
  0 <= n ->
  exists c ds,
    digits_of n = String c ds
    /\ all_chars is_digit (String c ds) = true
    /\ value_of_digits 0 (String c ds) = n.
Proof.
  intros Hn. unfold digits_of.
  destruct (digits_fuel_spec (Z.to_nat (Z.log2 n)) n EmptyString) as (c & ds & E & Hd & Hv).
  - rewrite Z2Nat.id by apply Z.log2_nonneg.
    destruct (Z.eq_dec n 0) as [->|Hnz]; [cbn; lia|].
    pose proof (Z.log2_spec n ltac:(lia)) as Hl.
    replace (Z.log2 n + 1) with (Z.succ (Z.log2 n)) by lia. lia.
  - exists c, ds. rewrite E, app_empty_r. split; [reflexivity|].
    split; [exact Hd|]. rewrite Hv. lia.
Qed.

Lemma span_digits_app (ds rest : string) :
  all_chars is_digit ds = true ->
  match rest with String c _ => is_digit c = false | EmptyString => True end ->
  span_digits (ds ++ rest) = (ds, rest).
Proof.
  intros Hd Hr. induction ds as [|c r IH]; cbn [append].
  - destruct rest as [|c r]; [reflexivity|]. cbn [span_digits]. rewrite Hr. reflexivity.
  - cbn [all_chars] in Hd. apply andb_true_iff in Hd. destruct Hd as [Hc Hd].
    cbn [span_digits]. rewrite Hc, (IH Hd). reflexivity.
Qed.

Lemma digit_plain (c : ascii) :
  is_digit c = true ->
  is_space c = false /\ Ascii.eqb c "_" = false
  /\ Ascii.eqb c "+" = false /\ Ascii.eqb c "-" = false.
Proof.
  intros H. apply digit_cases in H.
  repeat (destruct H as [<- | H]; [repeat split|]). destruct H.
Qed.

Lemma digits_no_underscore (ds : string) :
  all_chars is_digit ds = true -> remove_char "_" ds = ds.
Proof.
  induction ds as [|c r IH]; cbn [all_chars remove_char]; [reflexivity|].
  intros H. apply andb_true_iff in H. destruct H as [Hc Hr].
  destruct (digit_plain c Hc) as (_ & -> & _). rewrite (IH Hr). reflexivity.
Qed.

Lemma pad2_spec (n : Z) :
  0 <= n < 100 ->
  exists d1 d2,
    pad2 n = String d1 (String d2 EmptyString)
    /\ is_digit d1 = true /\ is_digit d2 = true
    /\ forall a, value_of_digits a (pad2 n) = a * 100 + n.
Proof.
  intros Hn. unfold pad2.
  pose proof (Z.mod_pos_bound n 10 ltac:(lia)) as Hm.
  assert (Hq : 0 <= n / 10 <= 9).
  { split; [apply Z.div_pos; lia|]. apply Z.lt_succ_r.
    apply Z.div_lt_upper_bound; lia. }
  destruct (digit_char_value (n / 10) Hq) as [H1 H2].
  destruct (digit_char_value (n mod 10) ltac:(lia)) as [H3 H4].
  eexists _, _. split; [reflexivity|]. split; [exact H1|]. split; [exact H3|].
  intros a. cbn [value_of_digits]. rewrite H2, H4.
  pose proof (Z.div_mod n 10 ltac:(lia)). lia.
Qed.

(** The text of a number with two decimals, read as a decimal. *)
Lemma of_string_two_decimals (sign : bool) (q : Z) :
  0 <= q -> ndigits q <= MAX_EMAX ->
  of_string (sign_text sign ++ digits_of (q / 100) ++ "." ++ pad2 (q mod 100))
  = Some (Finite sign q (-2)).
Proof.
  intros Hq Hnd.
  pose proof (Z.mod_pos_bound q 100 ltac:(lia)) as Hm.
  destruct (digits_of_spec (q / 100) (Z.div_pos q 100 Hq ltac:(lia)))
    as (c & ds & -> & Hd & Hv).
  destruct (pad2_spec (q mod 100) Hm) as (d1 & d2 & Ep & Hd1 & Hd2 & Hpv).
  pose proof Hd as Hd'. cbn [all_chars] in Hd'.
  apply andb_true_iff in Hd'. destruct Hd' as [Hc Hds].
  destruct (digit_plain c Hc) as (Hc1 & Hc2 & Hc3 & Hc4).
  destruct (digit_plain d2 Hd2) as (Hs2 & Hu2 & _).
  destruct (digit_plain d1 Hd1) as (_ & Hu1 & _).
  set (body := (String c ds ++ "." ++ pad2 (q mod 100))%string).
  assert (Hparse : parse_number sign body = Some (Finite sign q (-2))).
  { unfold parse_number, body.
    rewrite (span_digits_app (String c ds) ("." ++ pad2 (q mod 100)) Hd eq_refl).
    cbn [append]. rewrite Ep.
    change (span_digits (String d1 (String d2 EmptyString)))
      with (if is_digit d1
            then let '(d, r') := span_digits (String d2 EmptyString) in (String d1 d, r')
            else (EmptyString, String d1 (String d2 EmptyString))).
    rewrite Hd1. cbn [span_digits]. rewrite Hd2.
    cbn [append parse_exponent String.length].
    change (String c (ds ++ String d1 (String d2 EmptyString)))
      with (String c ds ++ String d1 (String d2 EmptyString))%string.
    rewrite value_of_digits_app, Hv, <- Ep, Hpv.
    replace (q / 100 * 100 + q mod 100) with q
      by (pose proof (Z.div_mod q 100 ltac:(lia)); lia).
    replace ((MIN_ETINY <=? 0 - Z.of_nat 2) && (0 - Z.of_nat 2 <=? MAX_EMAX)) with true
      by reflexivity.
    replace (0 - Z.of_nat 2 + ndigits q - 1 <=? MAX_EMAX) with true
      by (symmetry; apply Z.leb_le; lia).
    rewrite orb_true_r. reflexivity. }
  assert (Hclean : remove_char "_" (strip (sign_text sign ++ body))
                   = (sign_text sign ++ body)%string).
  { assert (Hr : rstrip (sign_text sign ++ body) = (sign_text sign ++ body)%string).
    { unfold body. rewrite Ep.
      replace (sign_text sign ++ String c ds ++ "." ++ String d1 (String d2 EmptyString))%string
        with ((sign_text sign ++ String c ds ++ String "." (String d1 EmptyString))
                ++ String d2 EmptyString)%string
        by (rewrite !app_assoc_s; reflexivity).
      rewrite rstrip_app_nonempty
        by (rewrite (rstrip_last d2 EmptyString Hs2 eq_refl); discriminate).
      rewrite (rstrip_last d2 EmptyString Hs2 eq_refl). reflexivity. }
    unfold strip. rewrite Hr.
    assert (Hl : lstrip (sign_text sign ++ body) = (sign_text sign ++ body)%string).
    { destruct sign; unfold body; cbn [sign_text append lstrip]; [reflexivity|].
      rewrite Hc1. reflexivity. }
    rewrite Hl, remove_char_app. unfold body.
    rewrite !remove_char_app, (digits_no_underscore _ Hd), Ep.
    cbn [remove_char]. rewrite Hu1, Hu2.
    destruct sign; reflexivity. }
  unfold of_string. rewrite Hclean.
  destruct sign; cbn [sign_text append].
  - fold body. rewrite Hparse. reflexivity.
  - unfold body in *. cbn [append] in *.
    apply digit_cases in Hc.
    repeat (destruct Hc as [<- | Hc]; [rewrite Hparse; reflexivity|]).
    destruct Hc.
Qed.

Lemma rescale_bound (c e : Z) (s : bool) :
  in_context (Finite s c e) ->
  0 <= rescale c e (-2) /\ ndigits (rescale c e (-2)) <= MAX_EMAX.
Proof.
  cbn [in_context]. intros [[Hc Hlt] [He _]]. unfold rescale.
  destruct (Z.leb_spec (-2) e) as [H|H].
  - pose proof (pow10_pos (e - -2) ltac:(lia)) as Hp.
    split; [nia|].
    assert (Hb : 0 <= c * 10 ^ (e - -2) < 10 ^ (prec + (e - -2))).
    { rewrite Z.pow_add_r by (unfold prec; lia). nia. }
    pose proof (ndigits_upper _ _ Hb ltac:(unfold prec; lia)).
    unfold Emax, prec, MAX_EMAX in *. lia.
  - pose proof (round_half_even_range c (-2 - e) Hc ltac:(lia)) as Hr.
    pose proof (round_half_even_nonneg c (-2 - e) Hc ltac:(lia)) as Hr0.
    split; [exact Hr0|].
    assert (Hq : c / 10 ^ (-2 - e) <= c).
    { pose proof (pow10_pos (-2 - e) ltac:(lia)).
      apply Z.div_le_upper_bound; [lia|]. nia. }
    assert (Hb : 0 <= round_half_even c (-2 - e) < 10 ^ (prec + 1)).
    { split; [exact Hr0|]. rewrite Z.pow_add_r by (unfold prec; lia).
      change (10 ^ 1) with 10. lia. }
    pose proof (ndigits_upper _ _ Hb ltac:(unfold prec; lia)).
    unfold prec, MAX_EMAX in *. lia.
Qed.

End FormatParse.

(** X16. The text that format_hours gives for a finite Decimal of the
    context reads back, through Decimal(text), as the value rounded
    to hundredths with exponent -2; formatting that text again gives
    the same text. *)
Theorem X16_formatted_hours_read_back (sign : bool) (c e : Z) :
  in_context (Finite sign c e) ->
  of_string (format_hours (VDecimal (Finite sign c e)))
  = Some (Finite sign (rescale c e (-2)) (-2))
  /\ parse_decimal (JStr (format_hours (VDecimal (Finite sign c e))))
     = Some (Finite sign (rescale c e (-2)) (-2))
  /\ format_hours (VJson (JStr (format_hours (VDecimal (Finite sign c e)))))
     = format_hours (VDecimal (Finite sign c e)).
Proof.
  intros Hctx. destruct (rescale_bound c e sign Hctx) as [Hq Hnd].
  pose proof (of_string_two_decimals sign _ Hq Hnd) as Hof.
  cbn [format_hours format_2f].
  set (q := rescale c e (-2)) in *.
  set (text := (sign_text sign ++ digits_of (q / 100) ++ "." ++ pad2 (q mod 100))%string)
    in *.
  assert (Hne : exists x r, text = String x r).
  { unfold text. destruct sign; cbn [sign_text append]; [eauto|].
    destruct (digits_of_spec (q / 100) (Z.div_pos q 100 Hq ltac:(lia)))
      as (x & ds & -> & _). cbn [append]. eauto. }
  destruct Hne as (x & r & Hx).
  split; [exact Hof|]. split.
  - unfold parse_decimal. rewrite Hx. rewrite <- Hx. exact Hof.
  - rewrite Hx. cbn [str]. rewrite <- Hx, Hof. cbn [format_2f].
    assert (Hsame : rescale q (-2) (-2) = q).
    { unfold rescale. change (-2 <=? -2) with true. cbv iota.
      change (10 ^ (-2 - -2)) with 1. apply Z.mul_1_r. }
    rewrite !Hsame. reflexivity.
Qed.

Lemma X16_formatted_hours_read_back_witness :
  of_string (format_hours (VDecimal (Finite false 1666666666666666666666666667 (-28))))
  = Some (Finite false 17 (-2)).
Proof.
  apply (proj1 (X16_formatted_hours_read_back false
                  1666666666666666666666666667 (-28)
                  ltac:(vm_compute; repeat split; congruence))).
Defined.
